(** * Scan orchestration of the zgrab2 MSSQL, SMB and Telnet modules

    A shallow embedding of the three [Scan] methods
    (modules/smb/scanner.go, modules/telnet/scanner.go and the MSSQL
    scanner) together with the properties their specification states.

    Every [Scan] talks to the outside world: it dials, it runs a protocol
    exchange, it closes connections, some of them from a [defer].  The
    embedding threads an explicit state (dial counter, trace of effects,
    stack of deferred closes) through a small state monad, so that "how
    often", "in which order" and "on which connection" are ordinary
    statements about the recorded trace. *)

From Stdlib Require Import ZArith Ascii String List Bool Lia.
From Stdlib Require Import Strings.Byte.
From stdpp Require Import base option list gmap strings.

Local Open Scope string_scope.

(* ===================================================================== *)
(** * The shared framework (package zgrab2)                               *)
(* ===================================================================== *)

Module Zgrab2.

(** Go [error] values as the scanners build and inspect them: the two
    MSSQL sentinels, any other error (identified by its text), and
    [fmt.Errorf("...: %w", err)], which wraps an inner error. *)
Inductive error : Type :=
| ErrNoServerEncryption
| ErrServerRequiresEncryption
| ErrOther (msg : string)
| ErrWrap (msg : string) (inner : error).

Definition error_base_eqb (e target : error) : bool :=
  match e, target with
  | ErrNoServerEncryption, ErrNoServerEncryption => true
  | ErrServerRequiresEncryption, ErrServerRequiresEncryption => true
  | ErrOther a, ErrOther b => String.eqb a b
  | _, _ => false
  end.

(** [errors.Is(err, target)] for a target that is a package-level value (a
    sentinel, or a plain error told by its text): compare, then unwrap and
    try again.  A wrapped error as target, which Go compares by identity,
    is outside this definition and never matched. *)
Fixpoint errors_Is (e target : error) : bool :=
  error_base_eqb e target ||
  match e with
  | ErrWrap _ inner => errors_Is inner target
  | _ => false
  end.

(** Modelled from the spec: the [ScanStatus] enumeration, declared in the
    framework, not in the scanners.  The three names the scanners
    mention are kept; the others are the classes of the spec's status
    classifier (connection-failed, timeout, protocol-error, unknown-error). *)
Inductive ScanStatus : Type :=
| SCAN_SUCCESS
| SCAN_CONNECTION_FAILED
| SCAN_TIMEOUT
| SCAN_PROTOCOL_ERROR
| SCAN_APPLICATION_ERROR
| SCAN_INVALID_INPUTS
| SCAN_UNKNOWN_ERROR.

(** The statuses the spec files under network failure. *)
Definition is_network_failure (s : ScanStatus) : bool :=
  match s with
  | SCAN_CONNECTION_FAILED | SCAN_TIMEOUT => true
  | _ => false
  end.

Record ScanTarget : Type := {
  Host : string;
  Port : Z;
  target_String : string   (* what target.String() prints *)
}.

(** A connection is named by the number of the dial call that opened it:
    every successful dial opens a socket of its own. *)
Definition conn : Type := nat.

(** What a dialer answers to its k-th call: [None] for a connection,
    [Some err] for a failure. *)
Definition dialer : Type := nat -> option error.

Record DialerGroup : Type := {
  Dial : dialer;               (* dialGroup.Dial(ctx, target) *)
  L4Dialer : option dialer     (* dialGroup.L4Dialer, nil-able *)
}.

(** ** Effects *)

(** The trace records every effect on the outside world; [P] is the type of
    the protocol-level effects of one scanner module. *)
Inductive event (P : Type) : Type :=
| EvDialOk (c : conn)
| EvDialFail (e : error)
| EvClose (c : conn)
| EvProto (p : P).
Arguments EvDialOk {P} c.
Arguments EvDialFail {P} e.
Arguments EvClose {P} c.
Arguments EvProto {P} p.

Record state (P : Type) : Type := mkState {
  st_dials : nat;               (* dial calls made so far *)
  st_trace : list (event P);    (* oldest effect first *)
  st_defers : list conn         (* deferred closes, most recent first *)
}.
Arguments mkState {P} _ _ _.
Arguments st_dials {P} _.
Arguments st_trace {P} _.
Arguments st_defers {P} _.

Definition init {P} : state P := mkState 0 [] [].

Definition M (P A : Type) : Type := state P -> A * state P.

#[export] Instance M_ret {P} : MRet (M P) := λ A (a : A) s, (a, s).
#[export] Instance M_bind {P} : MBind (M P) :=
  λ A B (f : A -> M P B) (m : M P A) s, let '(a, s') := m s in f a s'.

Definition emit {P} (e : event P) : M P unit :=
  λ s, (tt, mkState (st_dials s) (st_trace s ++ [e]) (st_defers s)).

(** One call of a dialer: the connection it opens, or its error. *)
Definition dial {P} (d : dialer) : M P (conn + error) :=
  λ s,
    let k := st_dials s in
    match d k with
    | None =>
        (inl k, mkState (S k) (st_trace s ++ [EvDialOk k]) (st_defers s))
    | Some err =>
        (inr err, mkState (S k) (st_trace s ++ [EvDialFail err]) (st_defers s))
    end.

(** [zgrab2.CloseConnAndHandleError(conn)]: calls [conn.Close()]; a close
    error is only logged. *)
Definition CloseConnAndHandleError {P} (c : conn) : M P unit :=
  emit (EvClose c).

(** [defer zgrab2.CloseConnAndHandleError(conn)] *)
Definition defer_close {P} (c : conn) : M P unit :=
  λ s, (tt, mkState (st_dials s) (st_trace s) (c :: st_defers s)).

(** Function exit: the deferred calls run, last deferred first. *)
Definition run_defers {P} : M P unit :=
  λ s, (tt, mkState (st_dials s)
                    (st_trace s ++ map EvClose (st_defers s)) []).

Definition func {P A} (body : M P A) : M P A :=
  r ← body; run_defers;; mret r.

(** Runs a scan from the initial state; yields what it returns and the
    trace it leaves. *)
Definition run {P A} (m : M P A) : A * list (event P) :=
  let '(a, s) := m init in (a, st_trace s).

(** ** Reading a trace *)

Definition is_close {P} (c : conn) (e : event P) : bool :=
  match e with EvClose c' => Nat.eqb c c' | _ => false end.

Definition is_open {P} (c : conn) (e : event P) : bool :=
  match e with EvDialOk c' => Nat.eqb c c' | _ => false end.

Definition is_dial {P} (e : event P) : bool :=
  match e with EvDialOk _ | EvDialFail _ => true | _ => false end.

Fixpoint count {A} (p : A -> bool) (l : list A) : nat :=
  match l with
  | [] => 0
  | x :: l' => (if p x then 1 else 0) + count p l'
  end.

Definition closes {P} (c : conn) (t : list (event P)) : nat :=
  count (is_close c) t.

Definition opened {P} (c : conn) (t : list (event P)) : bool :=
  existsb (is_open c) t.

Definition dials {P} (t : list (event P)) : nat := count is_dial t.

(** The ownership sentence of the spec, read on one trace: every
    connection that was opened has been closed exactly once. *)
Definition released_exactly_once {P} (t : list (event P)) : Prop :=
  forall c, opened c t = true -> closes c t = 1.

(** [p == nil] for a nil-able value. *)
Definition is_nil {A} (p : option A) : bool :=
  match p with None => true | Some _ => false end.

(** ** Connections over time *)

(** The connections that are open, most recently opened first, and how one
    effect changes them.  Closing a connection that is not open changes
    nothing. *)
Fixpoint without (c : conn) (live : list conn) : list conn :=
  match live with
  | [] => []
  | c' :: live' =>
      if Nat.eqb c c' then without c live' else c' :: without c live'
  end.

Definition after_event {P} (live : list conn) (e : event P) : list conn :=
  match e with
  | EvDialOk c => c :: live
  | EvClose c => without c live
  | _ => live
  end.

(** The connections still open at the end of a trace. *)
Fixpoint live_after {P} (live : list conn) (t : list (event P)) : list conn :=
  match t with
  | [] => live
  | e :: t' => live_after (after_event live e) t'
  end.

(** The largest number of connections open at one time. *)
Fixpoint peak_open {P} (live : list conn) (t : list (event P)) : nat :=
  match t with
  | [] => length live
  | e :: t' => Nat.max (length live) (peak_open (after_event live e) t')
  end.

(** Every protocol effect happens on a connection that is open at that
    moment; [conn_of] names the connection of a protocol effect. *)
Fixpoint on_open_only {P} (conn_of : P -> conn) (live : list conn)
    (t : list (event P)) : bool :=
  match t with
  | [] => true
  | e :: t' =>
      match e with
      | EvProto p => existsb (Nat.eqb (conn_of p)) live
      | _ => true
      end
      && on_open_only conn_of (after_event live e) t'
  end.

(** The error of the last dial of a trace, if that dial failed. *)
Fixpoint last_dial_error {P} (t : list (event P)) (acc : option error)
  : option error :=
  match t with
  | [] => acc
  | EvDialOk _ :: t' => last_dial_error t' None
  | EvDialFail e :: t' => last_dial_error t' (Some e)
  | _ :: t' => last_dial_error t' acc
  end.

Definition is_connect {P} (e : event P) : bool :=
  match e with EvDialOk _ => true | _ => false end.

(** How many dials connected. *)
Definition connects {P} (t : list (event P)) : nat := count is_connect t.

End Zgrab2.

(* ===================================================================== *)
(** * modules/smb/scanner.go                                              *)
(* ===================================================================== *)

Module SMB.
Import Zgrab2.

(** The command-line flags [Scan] reads. *)
Record Flags : Type := {
  SetupSession : bool;
  Verbose : bool
}.

(** One call [smb.GetSMBLog(conn, a2, a3, a4)], with its arguments in
    source order.  [Scan] passes [setupSession] second, a boolean literal
    third and the [verbose] variable fourth. *)
Inductive smb_event : Type :=
| CallGetSMBLog (c : conn) (setupSession : bool) (third : bool) (verbose : bool).

Definition is_negotiate (e : event smb_event) : bool :=
  match e with EvProto (CallGetSMBLog _ _ _ _) => true | _ => false end.

(** How often the negotiator ran. *)
Definition negotiations (t : list (event smb_event)) : nat :=
  count is_negotiate t.

(** The calls of the negotiator, in order. *)
Definition negotiator_calls (t : list (event smb_event)) : list smb_event :=
  omap (λ e, match e with EvProto p => Some p | _ => None end) t.

Section Scanner.
Context {SMBLog : Type}.

(** What lies outside the file: the status classifier of the framework and
    the negotiator of lib/smb, which answers (log, err), both nil-able, and
    may answer differently on every connection. *)
Record World : Type := {
  TryGetScanStatus : error -> ScanStatus;
  GetSMBLog : conn -> bool -> bool -> bool -> option SMBLog * option error
}.

Definition ScanReturn : Type := ScanStatus * option SMBLog * option error.

Definition callGetSMBLog (w : World) (c : conn) (session third debug : bool)
  : M smb_event (option SMBLog * option error) :=
  emit (EvProto (CallGetSMBLog c session third debug));;
  mret (GetSMBLog w c session third debug).

(** [func (scanner *Scanner) Scan(ctx, dialGroup, target)] *)
Definition Scan (w : World) (config : Flags) (dialGroup : DialerGroup)
    (target : ScanTarget) : M smb_event ScanReturn :=
  func (
    r ← dial (Dial dialGroup);
    match r with
    | inr err =>
        mret (TryGetScanStatus w err, None,
              Some (ErrWrap ("could not establish connection to SMB server "
                             ++ target_String target) err))
    | inl conn =>
        defer_close conn;;
        let setupSession := SetupSession config in
        let verbose := Verbose config in
        '(result, err) ← callGetSMBLog w conn setupSession false verbose;
        match err with
        | Some e =>
            match result with
            | None =>
                CloseConnAndHandleError conn;;
                r2 ← dial (Dial dialGroup);
                match r2 with
                | inr err2 =>
                    mret (TryGetScanStatus w err2, None,
                          Some (ErrWrap
                                  ("could not establish connection to SMB server "
                                   ++ target_String target ++ " on 2nd attempt")
                                  err2))
                | inl newConn =>
                    defer_close newConn;;
                    '(result2, err2) ←
                      callGetSMBLog w newConn setupSession true verbose;
                    match err2 with
                    | Some e2 => mret (TryGetScanStatus w e2, result2, Some e2)
                    | None => mret (SCAN_SUCCESS, result2, None)
                    end
                end
            | Some _ => mret (TryGetScanStatus w e, result, Some e)
            end
        | None => mret (SCAN_SUCCESS, result, None)
        end
    end).

(** What the second attempt alone yields: the classification of the
    negotiator's answer on the new connection. *)
Definition second_attempt (w : World) (config : Flags) (newConn : conn)
  : ScanReturn :=
  let '(result2, err2) :=
    GetSMBLog w newConn (SetupSession config) true (Verbose config) in
  match err2 with
  | Some e2 => (TryGetScanStatus w e2, result2, Some e2)
  | None => (SCAN_SUCCESS, result2, None)
  end.

(** The first negotiation failed and left no log. *)
Definition first_fails_without_log (w : World) (config : Flags)
    (dialGroup : DialerGroup) : Prop :=
  Dial dialGroup 0 = None /\
  exists e,
    GetSMBLog w 0 (SetupSession config) false (Verbose config) = (None, Some e).

(** The same as a test: does [Scan] take its retry branch? *)
Definition retried (w : World) (config : Flags) (dialGroup : DialerGroup)
  : bool :=
  is_nil (Dial dialGroup 0) &&
  match GetSMBLog w 0 (SetupSession config) false (Verbose config) with
  | (None, Some _) => true
  | _ => false
  end.

(** The retry sentence of the spec, read on one scan: two negotiator
    calls, the second with [verbose] true, and the triple of the second
    attempt. *)
Definition retry_as_stated (w : World) (config : Flags)
    (dialGroup : DialerGroup) (target : ScanTarget) : Prop :=
  first_fails_without_log w config dialGroup ->
  let '(ret, t) := run (Scan w config dialGroup target) in
  negotiations t = 2 /\
  (exists c session third,
      negotiator_calls t !! 1 = Some (CallGetSMBLog c session third true)) /\
  ret = second_attempt w config 1.

End Scanner.
Arguments World : clear implicits.

(** The connection a negotiator call runs on. *)
Definition conn_of (p : smb_event) : Zgrab2.conn :=
  match p with CallGetSMBLog c _ _ _ => c end.

(** The two calls [Scan] can make, in order, for a configuration. *)
Definition planned_calls (config : Flags) : list smb_event :=
  [CallGetSMBLog 0 (SetupSession config) false (Verbose config);
   CallGetSMBLog 1 (SetupSession config) true (Verbose config)].

End SMB.

(* ===================================================================== *)
(** * modules/telnet/scanner.go                                           *)
(* ===================================================================== *)

Module Telnet.
Import Zgrab2.

(** The command-line flags [Scan] reads; [ForceBanner] is the field
    [Banner] of the source's [Flags] (flag --force-banner), renamed because
    the log has a field [Banner] too. *)
Record Flags : Type := {
  MaxReadSize : Z;
  ForceBanner : bool;
  Verbose : bool
}.

(** Telnet negotiation commands (bytes 0xFB to 0xFE). *)
Inductive command : Type := WILL | WONT | DO | DONT.

Definition command_of_byte (b : byte) : option command :=
  match b with
  | xfb => Some WILL
  | xfc => Some WONT
  | xfd => Some DO
  | xfe => Some DONT
  | _ => None
  end.

Definition byte_of_command (c : command) : byte :=
  match c with WILL => xfb | WONT => xfc | DO => xfd | DONT => xfe end.

Definition IAC : byte := xff.

(** Modelled from the spec: the [TelnetLog] record, declared beside the
    scanner: the banner bytes and the negotiated options, each with the
    direction the peer asked for. *)
Record TelnetLog : Type := {
  Banner : list byte;
  Options : list (command * byte)
}.

(** [new(TelnetLog)] *)
Definition new_TelnetLog : TelnetLog := {| Banner := []; Options := [] |}.

Inductive telnet_event : Type :=
| CallGetTelnetBanner (c : conn) (maxReadSize : Z).

Section Scanner.
Context {View : Type}.

(** What lies outside the file: the status classifier, the banner grab
    (which fills the log it is handed and answers an error or nil) and the
    log's [getResult] method, whose result type is left open as [View]. *)
Record World : Type := {
  TryGetScanStatus : error -> ScanStatus;
  GetTelnetBanner : conn -> Z -> TelnetLog * option error;
  getResult : TelnetLog -> View
}.

(** The [any] that [Scan] returns as its result: the literal [nil], the
    log itself, or whatever [getResult] produced. *)
Inductive ScanResult : Type :=
| ResultNil
| ResultLog (log : TelnetLog)
| ResultView (v : View).

Definition ScanReturn : Type := ScanStatus * ScanResult * option error.

Definition callGetTelnetBanner (w : World) (c : conn) (maxReadSize : Z)
  : M telnet_event (TelnetLog * option error) :=
  emit (EvProto (CallGetTelnetBanner c maxReadSize));;
  mret (GetTelnetBanner w c maxReadSize).

(** [func (scanner *Scanner) Scan(ctx, dialGroup, target)] *)
Definition Scan (w : World) (config : Flags) (dialGroup : DialerGroup)
    (target : ScanTarget) : M telnet_event ScanReturn :=
  func (
    r ← dial (Dial dialGroup);
    match r with
    | inr err =>
        mret (TryGetScanStatus w err, ResultNil,
              Some (ErrWrap ("could not establish connection to telnet server "
                             ++ target_String target) err))
    | inl conn =>
        defer_close conn;;
        '(result, err) ← callGetTelnetBanner w conn (MaxReadSize config);
        match err with
        | Some e =>
            if ForceBanner config && (0 <? length (Banner result))%nat
            then mret (TryGetScanStatus w e, ResultLog result, Some e)
            else mret (TryGetScanStatus w e,
                       ResultView (getResult w result), Some e)
        | None => mret (SCAN_SUCCESS, ResultLog result, None)
        end
    end).

End Scanner.
Arguments World : clear implicits.
Arguments ScanResult : clear implicits.

(** ** The banner reader *)

(** What the peer puts on the wire: its bytes, then either end of stream
    ([None]) or an I/O error. *)
Record stream : Type := {
  bytes : list byte;
  ending : option error
}.

(** The reply that refuses an option: DONT to WILL and WONT, WONT to DO and
    DONT. *)
Definition refuse (c : command) : command :=
  match c with
  | WILL | WONT => DONT
  | DO | DONT => WONT
  end.

Definition ErrTruncated : error := ErrOther "truncated telnet control sequence".
Definition ErrUnsupported : error := ErrOther "unsupported telnet command".

Record reading : Type := {
  r_log : TelnetLog;
  r_replies : list (list byte);   (* what the client wrote, in order *)
  r_err : option error
}.

Definition add_banner (b : byte) (r : reading) : reading :=
  {| r_log := {| Banner := b :: Banner (r_log r); Options := Options (r_log r) |};
     r_replies := r_replies r;
     r_err := r_err r |}.

Definition add_option (c : command) (opt : byte) (r : reading) : reading :=
  {| r_log := {| Banner := Banner (r_log r);
                 Options := (c, opt) :: Options (r_log r) |};
     r_replies := [IAC; byte_of_command (refuse c); opt] :: r_replies r;
     r_err := r_err r |}.

Definition stop (err : option error) : reading :=
  {| r_log := new_TelnetLog; r_replies := []; r_err := err |}.

(** Modelled from the spec: the banner reader ReadBanner / GetTelnetBanner,
    which lives beside the scanner, not in scanner.go.  It reads byte by
    byte while there is [room] left under the ceiling of [maxBytes] banner
    bytes; IAC introduces a command byte and an option code, which are
    recorded and refused and are no banner content; it ends at the ceiling,
    at end of stream (no error) or at an I/O error; a control sequence cut
    short by the end of the stream is a read error. *)
Fixpoint ReadBanner_from (input : list byte) (ending : option error)
    (room : nat) : reading :=
  match room with
  | O => stop None
  | S room' =>
      match input with
      | [] => stop ending
      | xff :: rest =>
          match rest with
          | cmd :: opt :: rest' =>
              match command_of_byte cmd with
              | Some c => add_option c opt (ReadBanner_from rest' ending room)
              | None => stop (Some ErrUnsupported)
              end
          | _ => stop (Some (default ErrTruncated ending))
          end
      | b :: rest => add_banner b (ReadBanner_from rest ending room')
      end
  end.

Definition ReadBanner (s : stream) (maxBytes : nat) : reading :=
  ReadBanner_from (bytes s) (ending s) maxBytes.

(** A byte that is banner content: anything but IAC. *)
Definition plain (b : byte) : bool :=
  match b with xff => false | _ => true end.

(** The world in which connection [c] carries the stream [peer c]; the
    ceiling is a byte count, so a negative max-read-size leaves no room. *)
Definition world_of_peer {View} (classify : error -> ScanStatus)
    (view : TelnetLog -> View) (peer : conn -> stream) : World View :=
  {| TryGetScanStatus := classify;
     GetTelnetBanner := λ c maxReadSize,
       let r := ReadBanner (peer c) (Z.to_nat maxReadSize) in
       (r_log r, r_err r);
     getResult := view |}.

(** ** The result as a pointer *)

(** A log carries signal when it holds a banner byte or a negotiated
    option. *)
Definition has_signal (log : TelnetLog) : bool :=
  match Banner log, Options log with
  | [], [] => false
  | _, _ => true
  end.

(** Modelled from the spec: the log's [getResult] method, which lives
    beside the scanner, not in scanner.go.  On failure a partial result is
    attached when it carries signal and is discarded (nil) when it carries
    none, so that a peer that never spoke the protocol is not reported as
    present. *)
Definition getResult_model (log : TelnetLog) : option TelnetLog :=
  if has_signal log then Some log else None.

(** Is the result [Scan] returns nil, read as a pointer?  The literal nil
    is, the log made by [new] is not, and the value of [getResult] is when
    it is the nil pointer. *)
Definition result_is_nil (r : ScanResult (option TelnetLog)) : bool :=
  match r with
  | ResultNil => true
  | ResultLog _ => false
  | ResultView v => is_nil v
  end.

(** The sentence that a failed banner grab still comes with a non-nil
    result, read on one scan. *)
Definition non_nil_as_stated (w : World (option TelnetLog)) (config : Flags)
    (dialGroup : DialerGroup) (target : ScanTarget) : Prop :=
  Dial dialGroup 0 = None ->
  (exists e, snd (GetTelnetBanner w 0 (MaxReadSize config)) = Some e) ->
  result_is_nil (snd (fst (fst (run (Scan w config dialGroup target)))))
  = false.

(** The connection a banner grab runs on. *)
Definition conn_of (p : telnet_event) : Zgrab2.conn :=
  match p with CallGetTelnetBanner c _ => c end.

End Telnet.

(* ===================================================================== *)
(** * The MSSQL scanner (package mssql)                                   *)
(* ===================================================================== *)

Module MSSQL.
Import Zgrab2.

(** ** [strings.Trim] *)

Definition in_cutset (cutset : string) (c : ascii) : bool :=
  existsb (Ascii.eqb c) (list_ascii_of_string cutset).

(** [strings.TrimLeft] for a cutset of ASCII characters: drops bytes from
    the front while they are in the cutset. *)
Fixpoint TrimLeft (s cutset : string) : string :=
  match s with
  | EmptyString => EmptyString
  | String c s' => if in_cutset cutset c then TrimLeft s' cutset else s
  end.

(** [strings.TrimRight], likewise from the back. *)
Fixpoint TrimRight (s cutset : string) : string :=
  match s with
  | EmptyString => EmptyString
  | String c s' =>
      match TrimRight s' cutset with
      | EmptyString =>
          if in_cutset cutset c then EmptyString else String c EmptyString
      | r => String c r
      end
  end.

(** [strings.Trim(s, cutset)] *)
Definition Trim (s cutset : string) : string :=
  TrimLeft (TrimRight s cutset) cutset.

(** The cutset of [Scan]: the Go literal of NUL, CR and LF. *)
Definition instance_cutset : string :=
  String "000" (String "013" (String "010" EmptyString)).

(** Reading a trimmed string: every character of [s] is in the cutset;
    [s] starts, or ends, with a character of the cutset. *)
Fixpoint all_in (cutset s : string) : bool :=
  match s with
  | EmptyString => true
  | String c s' => in_cutset cutset c && all_in cutset s'
  end.

Definition starts_in (cutset s : string) : bool :=
  match s with
  | EmptyString => false
  | String c _ => in_cutset cutset c
  end.

Fixpoint ends_in (cutset s : string) : bool :=
  match s with
  | EmptyString => false
  | String c EmptyString => in_cutset cutset c
  | String _ s' => ends_in cutset s'
  end.

(** [v] is [s] with its leading and trailing cutset characters removed:
    what was cut off on either side lies in the cutset, and [v] neither
    starts nor ends with a cutset character. *)
Definition trimmed_of (cutset s v : string) : Prop :=
  exists l r,
    s = l ++ v ++ r /\
    all_in cutset l = true /\ all_in cutset r = true /\
    starts_in cutset v = false /\ ends_in cutset v = false.

(** NUL, CR or LF, told by the character code, and the same readings of
    a string for these three characters. *)
Definition is_NUL_CR_LF (c : ascii) : bool :=
  let n := N_of_ascii c in
  (N.eqb n 0 || N.eqb n 13 || N.eqb n 10)%N.

Fixpoint only_NUL_CR_LF (s : string) : bool :=
  match s with
  | EmptyString => true
  | String c s' => is_NUL_CR_LF c && only_NUL_CR_LF s'
  end.

Definition starts_with_NUL_CR_LF (s : string) : bool :=
  match s with
  | EmptyString => false
  | String c _ => is_NUL_CR_LF c
  end.

Fixpoint ends_with_NUL_CR_LF (s : string) : bool :=
  match s with
  | EmptyString => false
  | String c EmptyString => is_NUL_CR_LF c
  | String _ s' => ends_with_NUL_CR_LF s'
  end.

(** [v] is [s] without its leading and trailing NUL, CR and LF: what is
    cut off on either side consists of these characters, and [v] neither
    starts nor ends with one. *)
Definition without_outer_NUL_CR_LF (s v : string) : Prop :=
  exists l r,
    s = l ++ v ++ r /\
    only_NUL_CR_LF l = true /\ only_NUL_CR_LF r = true /\
    starts_with_NUL_CR_LF v = false /\ ends_with_NUL_CR_LF v = false.

(** ** Data *)

(** Modelled from the spec: the [EncryptMode] enumeration of the TDS codec,
    which is declared with the codec, not with the scanner;
    [EncryptModeUnknown] stands for the
    value returned when no mode was learnt. *)
Inductive EncryptMode : Type :=
| EncryptModeUnknown
| EncryptModeOff
| EncryptModeOn
| EncryptModeNotSupported
| EncryptModeRequired
| EncryptModeClientForced.

Definition EncryptMode_eqb (a b : EncryptMode) : bool :=
  match a, b with
  | EncryptModeUnknown, EncryptModeUnknown
  | EncryptModeOff, EncryptModeOff
  | EncryptModeOn, EncryptModeOn
  | EncryptModeNotSupported, EncryptModeNotSupported
  | EncryptModeRequired, EncryptModeRequired
  | EncryptModeClientForced, EncryptModeClientForced => true
  | _, _ => false
  end.

(** [PreloginOptions]: a Go map from the option token (one byte) to the raw
    bytes of the option. *)
Abbreviation PreloginOptions := (gmap N (list byte)).

Section Scanner.
Context {TLSLog : Type}.

(** [ScanResults] *)
Record ScanResults : Type := {
  Version : string;
  InstanceName : option string;
  res_PreloginOptions : option PreloginOptions;
  res_EncryptMode : option EncryptMode;
  res_TLSLog : option TLSLog
}.

(** [&ScanResults{}] *)
Definition empty_ScanResults : ScanResults :=
  {| Version := ""; InstanceName := None; res_PreloginOptions := None;
     res_EncryptMode := None; res_TLSLog := None |}.

(** The TLS connection the handshake may leave behind; [GetLog] is what its
    method of that name answers. *)
Record TLSConnection : Type := {
  GetLog : option TLSLog
}.

(** The fields of [Connection] that [Scan] reads. *)
Record Connection : Type := {
  rawConn : conn;
  tlsConn : option TLSConnection;
  PreloginOptions_ : option PreloginOptions;
  readValidTDSPacket : bool
}.

(** [NewConnection(conn)]: nothing read, nothing negotiated yet. *)
Definition NewConnection (c : conn) : Connection :=
  {| rawConn := c; tlsConn := None; PreloginOptions_ := None;
     readValidTDSPacket := false |}.

(** TDS packet types the handshake writes. *)
Inductive PacketType : Type := PacketPrelogin | PacketTLSHandshake.

(** I/O on the connection during the handshake. *)
Inductive mssql_event : Type :=
| WriteTDS (c : conn) (ty : PacketType) (payload : list byte)
| ReadTDS (c : conn).

(** What [sql.Handshake] leaves: the connection as it stands afterwards,
    the two values it returns, and the I/O it did. *)
Record HandshakeResult : Type := {
  h_sql : Connection;
  h_encryptMode : EncryptMode;
  h_err : option error;
  h_io : list mssql_event
}.

(** What lies outside the file: the status classifier, the token of the
    INSTANCE option, the version decoder ([GetVersion] followed by
    [String], nil-able) and the handshake. *)
Record World : Type := {
  TryGetScanStatus : error -> ScanStatus;
  PreloginInstance : N;
  GetVersion : PreloginOptions -> option string;
  Handshake : Connection -> string -> HandshakeResult
}.

(** The command-line flags [Scan] reads. *)
Record Flags : Type := {
  EncryptMode_flag : string;   (* --encrypt-mode, field EncryptMode *)
  Verbose : bool
}.

Definition ScanReturn : Type := ScanStatus * option ScanResults * option error.

Fixpoint emit_all (l : list mssql_event) : M mssql_event unit :=
  match l with
  | [] => mret tt
  | e :: l' => emit (EvProto e);; emit_all l'
  end.

Definition callHandshake (w : World) (sql : Connection) (flag : string)
  : M mssql_event HandshakeResult :=
  let h := Handshake w sql flag in
  emit_all (h_io h);; mret h.

(** Lines 164 to 181 of [Scan]: the result as filled from the connection. *)
Definition fill_result (w : World) (sql : Connection)
    (encryptMode : EncryptMode) : ScanResults :=
  let result := empty_ScanResults in
  let result :=
    {| Version := Version result; InstanceName := InstanceName result;
       res_PreloginOptions := res_PreloginOptions result;
       res_EncryptMode := Some encryptMode;
       res_TLSLog := res_TLSLog result |} in
  let result :=
    match tlsConn sql with
    | Some tls =>
        {| Version := Version result; InstanceName := InstanceName result;
           res_PreloginOptions := res_PreloginOptions result;
           res_EncryptMode := res_EncryptMode result;
           res_TLSLog := GetLog tls |}
    | None => result
    end in
  match PreloginOptions_ sql with
  | Some opts =>
      {| Version :=
           match GetVersion w opts with
           | Some v => v
           | None => Version result
           end;
         InstanceName :=
           match opts !! PreloginInstance w with
           | Some name => Some (Trim (string_of_list_byte name) instance_cutset)
           | None => None
           end;
         res_PreloginOptions := Some opts;
         res_EncryptMode := res_EncryptMode result;
         res_TLSLog := res_TLSLog result |}
  | None => result
  end.

(** Modelled from the spec: [Connection.Close], declared with the codec.
    The deferred closure of [Scan] calls [sql.Close()] and logs its error;
    closing the wrapper releases the transport connection it wraps. *)
Definition defer_sql_Close (sql : Connection) : M mssql_event unit :=
  defer_close (rawConn sql).

(** Lines 158 to 202 of [Scan]: what is returned once the handshake has
    run. *)
Definition after_handshake (w : World) (h : HandshakeResult) : ScanReturn :=
  let sql := h_sql h in
  let result := Some (fill_result w sql (h_encryptMode h)) in
  match h_err h with
  | Some handshakeErr =>
      let result :=
        if is_nil (PreloginOptions_ sql) && negb (readValidTDSPacket sql)
        then None else result in
      if errors_Is handshakeErr ErrNoServerEncryption
      then (SCAN_APPLICATION_ERROR, result, Some handshakeErr)
      else if errors_Is handshakeErr ErrServerRequiresEncryption
      then (SCAN_APPLICATION_ERROR, result, Some handshakeErr)
      else (TryGetScanStatus w handshakeErr, result, Some handshakeErr)
  | None => (SCAN_SUCCESS, result, None)
  end.

(** [func (scanner *Scanner) Scan(ctx, dialGroup, target)] *)
Definition Scan (w : World) (config : Flags) (dialGroup : DialerGroup)
    (target : ScanTarget) : M mssql_event ScanReturn :=
  func (
    match L4Dialer dialGroup with
    | None =>
        mret (SCAN_INVALID_INPUTS, None,
              Some (ErrOther "l4 dialer is required for mssql"))
    | Some l4Dialer =>
        r ← dial l4Dialer;
        match r with
        | inr err =>
            mret (TryGetScanStatus w err, None,
                  Some (ErrWrap ("error dialing target "
                                 ++ target_String target) err))
        | inl conn =>
            let sql := NewConnection conn in
            defer_sql_Close sql;;
            h ← callHandshake w sql (EncryptMode_flag config);
            mret (after_handshake w h)
        end
    end).

(** The handshake of a scan whose dial connected: it runs on the first
    connection. *)
Definition handshake_of (w : World) (config : Flags) : HandshakeResult :=
  Handshake w (NewConnection 0) (EncryptMode_flag config).

End Scanner.
Arguments World : clear implicits.
Arguments ScanResults : clear implicits.
Arguments TLSConnection : clear implicits.
Arguments Connection : clear implicits.
Arguments HandshakeResult : clear implicits.

(** ** The handshake *)

Section HandshakeModel.
Context {TLSLog : Type}.

(** What comes back for the PRELOGIN packet: a read error; bytes whose
    header is no valid TDS header; a valid TDS packet whose option table
    does not decode; or a decoded option table, given with the value of its
    ENCRYPTION option. *)
Inductive PreloginReply : Type :=
| ReplyReadError (e : error)
| ReplyNotTDS (e : error)
| ReplyUndecodable (e : error)
| ReplyOptions (opts : PreloginOptions) (serverEncrypt : EncryptMode).

(** The peer as the handshake meets it. *)
Record Server : Type := {
  write_error : option error;          (* writing the PRELOGIN packet fails *)
  prelogin_reply : PreloginReply;
  tls_chunks : list (list byte);       (* TLS handshake bytes of the client *)
  tls_conn : TLSConnection TLSLog;
  tls_error : option error             (* the TLS handshake fails *)
}.

(** The PRELOGIN payload the client sends; its bytes are the codec's
    business. *)
Definition prelogin_payload : list byte := [].

(** The flag --encrypt-mode as a mode: one of ENCRYPT_ON, ENCRYPT_OFF,
    ENCRYPT_NOT_SUP. *)
Definition getEncryptMode (flag : string) : EncryptMode :=
  if String.eqb flag "ENCRYPT_ON" then EncryptModeOn
  else if String.eqb flag "ENCRYPT_OFF" then EncryptModeOff
  else if String.eqb flag "ENCRYPT_NOT_SUP" then EncryptModeNotSupported
  else EncryptModeUnknown.

Definition requires_encryption (m : EncryptMode) : bool :=
  match m with
  | EncryptModeRequired | EncryptModeClientForced => true
  | _ => false
  end.

(** Modelled from the spec: [Connection.Handshake], which lives with the
    TDS codec, not with the scanner.  The state machine of the spec:
    send PRELOGIN; await the response, noting whether a valid TDS header was
    read and keeping the decoded options; client ON against server
    NOT_SUPPORTED ends with [ErrNoServerEncryption] and the server's mode;
    server NOT_SUPPORTED otherwise ends the handshake without TLS; any other
    mode runs the TLS handshake in TDS packets, whose failure is
    [ErrServerRequiresEncryption] when the server's mode is REQUIRED or
    CLIENT_FORCED. *)
Definition Handshake_model (srv : Server) (sql : Connection TLSLog)
    (flag : string) : HandshakeResult TLSLog :=
  let c := rawConn sql in
  let clientEncrypt := getEncryptMode flag in
  let send := [WriteTDS c PacketPrelogin prelogin_payload] in
  let fail (sql' : Connection TLSLog) (io : list mssql_event) (e : error) :=
    {| h_sql := sql'; h_encryptMode := EncryptModeUnknown;
       h_err := Some e; h_io := io |} in
  let seen :=
    {| rawConn := c; tlsConn := tlsConn sql;
       PreloginOptions_ := PreloginOptions_ sql;
       readValidTDSPacket := true |} in
  match write_error srv with
  | Some e => fail sql send e
  | None =>
      let io := (send ++ [ReadTDS c])%list in
      match prelogin_reply srv with
      | ReplyReadError e => fail sql io e
      | ReplyNotTDS e => fail sql io e
      | ReplyUndecodable e => fail seen io e
      | ReplyOptions opts serverEncrypt =>
          let decoded :=
            {| rawConn := c; tlsConn := tlsConn sql;
               PreloginOptions_ := Some opts;
               readValidTDSPacket := true |} in
          if EncryptMode_eqb serverEncrypt EncryptModeNotSupported then
            {| h_sql := decoded; h_encryptMode := serverEncrypt;
               h_err := if EncryptMode_eqb clientEncrypt EncryptModeOn
                        then Some ErrNoServerEncryption else None;
               h_io := io |}
          else
            {| h_sql :=
                 {| rawConn := c; tlsConn := Some (tls_conn srv);
                    PreloginOptions_ := Some opts;
                    readValidTDSPacket := true |};
               h_encryptMode := serverEncrypt;
               h_err :=
                 match tls_error srv with
                 | Some e =>
                     if requires_encryption serverEncrypt
                     then Some ErrServerRequiresEncryption else Some e
                 | None => None
                 end;
               h_io :=
                 (io ++ map (WriteTDS c PacketTLSHandshake) (tls_chunks srv))%list |}
      end
  end.

(** The world in which the handshake is the one above against [srv]. *)
Definition world_of_server (classify : error -> ScanStatus) (instance : N)
    (version : PreloginOptions -> option string) (srv : Server)
  : World TLSLog :=
  {| TryGetScanStatus := classify;
     PreloginInstance := instance;
     GetVersion := version;
     Handshake := Handshake_model srv |}.

End HandshakeModel.
Arguments PreloginReply : clear implicits.
Arguments Server : clear implicits.

(** TLS handshake bytes in a trace. *)
Definition is_tls_write (e : event mssql_event) : bool :=
  match e with
  | EvProto (WriteTDS _ PacketTLSHandshake _) => true
  | _ => false
  end.

Definition tls_writes (t : list (event mssql_event)) : nat :=
  count is_tls_write t.

(** The connection of one I/O step of the handshake. *)
Definition conn_of (p : mssql_event) : Zgrab2.conn :=
  match p with
  | WriteTDS c _ _ => c
  | ReadTDS c => c
  end.

(** The handshake I/O stays on connection [c]. *)
Definition io_on (c : Zgrab2.conn) (io : list mssql_event) : bool :=
  forallb (λ p, Nat.eqb (conn_of p) c) io.

End MSSQL.

(* ===================================================================== *)
(** * Initialising the scanners                                           *)
(* ===================================================================== *)

Module Setup.
Import Zgrab2.

(** The fields of [zgrab2.BaseFlags] the scanners read. *)
Record BaseFlags : Type := {
  Name : string;
  Trigger : string
}.

Section Init.
(** Declared by the framework and by logrus: the transport protocols with
    [zgrab2.TransportTCP], the TLS flags, and the log levels with
    [log.DebugLevel]. *)
Context {TransportProtocol TLSFlags Level : Type}.
Variable TransportTCP : TransportProtocol.
Variable DebugLevel : Level.

(** The fields of [zgrab2.DialerGroupConfig] the scanners set; a field
    left out of the composite literal has its zero value. *)
Record DialerGroupConfig : Type := {
  TransportAgnosticDialerProtocol : TransportProtocol;
  NeedSeparateL4Dialer : bool;
  BaseFlags_ : option BaseFlags;
  TLSEnabled : bool;
  TLSFlags_ : option TLSFlags
}.

(** The full [Flags] of each module: the embedded framework flags beside
    the flags [Scan] reads. *)
Record smb_Flags : Type := {
  smb_BaseFlags : BaseFlags;
  smb_scan : SMB.Flags
}.

Record telnet_Flags : Type := {
  telnet_BaseFlags : BaseFlags;
  telnet_scan : Telnet.Flags
}.

Record mssql_Flags : Type := {
  mssql_BaseFlags : BaseFlags;
  mssql_TLSFlags : TLSFlags;
  mssql_scan : MSSQL.Flags
}.

(** The flags a scanner is initialised with; the framework hands [Init]
    the value the module's [NewFlags] made, so the type assertion of
    [Init] holds. *)
Inductive ScanFlags : Type :=
| FlagsSMB (f : smb_Flags)
| FlagsTelnet (f : telnet_Flags)
| FlagsMSSQL (f : mssql_Flags).

(** [Scanner]: both fields are nil until [Init]. *)
Record Scanner : Type := {
  config : option ScanFlags;
  dialerGroupConfig : option DialerGroupConfig
}.

(** [new(Scanner)] *)
Definition NewScanner : Scanner :=
  {| config := None; dialerGroupConfig := None |}.

Definition base_of (flags : ScanFlags) : BaseFlags :=
  match flags with
  | FlagsSMB f => smb_BaseFlags f
  | FlagsTelnet f => telnet_BaseFlags f
  | FlagsMSSQL f => mssql_BaseFlags f
  end.

(** [func (scanner *Scanner) Init(flags)] of the three modules, on the
    scanner and on the process-wide log level; each returns a nil error.
    Only the MSSQL one touches the level, and only when verbose. *)
Definition Init (scanner : Scanner) (flags : ScanFlags) (level : Level)
  : Scanner * Level * option error :=
  match flags with
  | FlagsSMB f =>
      ({| config := Some flags;
          dialerGroupConfig :=
            Some {| TransportAgnosticDialerProtocol := TransportTCP;
                    NeedSeparateL4Dialer := false;
                    BaseFlags_ := Some (smb_BaseFlags f);
                    TLSEnabled := false;
                    TLSFlags_ := None |} |},
       level, None)
  | FlagsTelnet f =>
      ({| config := Some flags;
          dialerGroupConfig :=
            Some {| TransportAgnosticDialerProtocol := TransportTCP;
                    NeedSeparateL4Dialer := false;
                    BaseFlags_ := Some (telnet_BaseFlags f);
                    TLSEnabled := false;
                    TLSFlags_ := None |} |},
       level, None)
  | FlagsMSSQL f =>
      ({| config := Some flags;
          dialerGroupConfig :=
            Some {| TransportAgnosticDialerProtocol := TransportTCP;
                    NeedSeparateL4Dialer := true;
                    BaseFlags_ := Some (mssql_BaseFlags f);
                    TLSEnabled := true;
                    TLSFlags_ := Some (mssql_TLSFlags f) |} |},
       (if MSSQL.Verbose (mssql_scan f) then DebugLevel else level),
       None)
  end.

(** [GetName], [GetTrigger]: they read through [scanner.config], which is
    nil before [Init]; [None] stands for the nil dereference. *)
Definition GetName (scanner : Scanner) : option string :=
  Name ∘ base_of <$> config scanner.

Definition GetTrigger (scanner : Scanner) : option string :=
  Trigger ∘ base_of <$> config scanner.

(** [GetDialerGroupConfig] *)
Definition GetDialerGroupConfig (scanner : Scanner)
  : option DialerGroupConfig :=
  dialerGroupConfig scanner.

(** Start-up: each scanner is initialised with its flags, one after the
    other, in one process. *)
Fixpoint Init_each (l : list (Scanner * ScanFlags)) (level : Level)
  : list Scanner * Level :=
  match l with
  | [] => ([], level)
  | (scanner, flags) :: l' =>
      let '(scanner', level', _) := Init scanner flags level in
      let '(scanners, level'') := Init_each l' level' in
      (scanner' :: scanners, level'')
  end.

(** Does this [Init] raise the log level? *)
Definition raises_level (flags : ScanFlags) : bool :=
  match flags with
  | FlagsMSSQL f => MSSQL.Verbose (mssql_scan f)
  | _ => false
  end.

End Init.

End Setup.

(* ===================================================================== *)
(** * Concrete scans                                                      *)
(* ===================================================================== *)

Module Inputs.
Import Zgrab2.

Definition target0 : ScanTarget :=
  {| Host := "db.example"; Port := 1433; target_String := "db.example:1433" |}.

Definition classify (e : error) : ScanStatus :=
  if errors_Is e (ErrOther "i/o timeout") then SCAN_TIMEOUT
  else if errors_Is e (ErrOther "connection refused") then SCAN_CONNECTION_FAILED
  else SCAN_UNKNOWN_ERROR.

(** Every dial connects. *)
Definition dial_ok : DialerGroup :=
  {| Dial := λ _, None; L4Dialer := Some (λ _, None) |}.

(** The first dial connects, every later one is refused. *)
Definition dial_once : DialerGroup :=
  {| Dial := λ k, if Nat.eqb k 0 then None
                  else Some (ErrOther "connection refused");
     L4Dialer := Some (λ _, None) |}.

(** *** SMB; a log is a number here. *)

Definition smb_quiet : SMB.Flags :=
  {| SMB.SetupSession := false; SMB.Verbose := false |}.

(** The first connection is reset before any log exists; on any other
    connection the negotiation succeeds with log 1. *)
Definition smb_reset_first : SMB.World nat :=
  {| SMB.TryGetScanStatus := classify;
     SMB.GetSMBLog := λ c _ _ _,
       if Nat.eqb c 0 then (None, Some (ErrOther "connection reset"))
       else (Some 1, None) |}.

(** The negotiation fails after the negotiate response: log 7 and an
    error. *)
Definition smb_partial : SMB.World nat :=
  {| SMB.TryGetScanStatus := classify;
     SMB.GetSMBLog := λ _ _ _ _, (Some 7, Some (ErrOther "i/o timeout")) |}.

(** *** Telnet *)

Definition hello : list byte := [x48; x65; x6c; x6c; x6f].

Definition telnet_hello : Telnet.stream :=
  {| Telnet.bytes := hello; Telnet.ending := None |}.

(** Two banner bytes, then a control sequence cut short by the end of the
    stream. *)
Definition telnet_cut : Telnet.stream :=
  {| Telnet.bytes := [x48; x69; xff; xfb]; Telnet.ending := None |}.

Definition telnet_world (s : Telnet.stream) : Telnet.World Telnet.TelnetLog :=
  Telnet.world_of_peer classify
    (λ log, {| Telnet.Banner := []; Telnet.Options := Telnet.Options log |})
    (λ _, s).

Definition telnet_flags (force : bool) (m : Z) : Telnet.Flags :=
  {| Telnet.MaxReadSize := m; Telnet.ForceBanner := force;
     Telnet.Verbose := false |}.

(** *** MSSQL; a TLS log is a string here. *)

Definition instance_token : N := 2.

Definition sqlexpress0 : list byte :=
  [x53; x51; x4c; x45; x58; x50; x52; x45; x53; x53; x00].

Definition options0 : gmap N (list byte) :=
  <[instance_token := sqlexpress0]> (<[1%N := [x02]]> ∅).

Definition mssql_server (reply : MSSQL.PreloginReply)
    (tls_failure : option error) : MSSQL.Server string :=
  {| MSSQL.write_error := None;
     MSSQL.prelogin_reply := reply;
     MSSQL.tls_chunks := [[x16; x03; x01]];
     MSSQL.tls_conn := {| MSSQL.GetLog := Some "tls" |};
     MSSQL.tls_error := tls_failure |}.

Definition mssql_world (srv : MSSQL.Server string) : MSSQL.World string :=
  MSSQL.world_of_server classify instance_token (λ _, None) srv.

Definition mssql_flags (mode : string) : MSSQL.Flags :=
  {| MSSQL.EncryptMode_flag := mode; MSSQL.Verbose := false |}.

(** The peer answers with something that is no TDS packet. *)
Definition not_mssql : MSSQL.Server string :=
  mssql_server (MSSQL.ReplyNotTDS (ErrOther "invalid TDS header")) None.

(** The peer declares that it cannot encrypt. *)
Definition no_encryption : MSSQL.Server string :=
  mssql_server (MSSQL.ReplyOptions options0 MSSQL.EncryptModeNotSupported) None.

(** The peer answers with a TDS packet whose option table is broken. *)
Definition broken_options : MSSQL.Server string :=
  mssql_server (MSSQL.ReplyUndecodable (ErrOther "option out of bounds")) None.

(** The peer of the spec's scenario: ENCRYPTION is ON, the instance is
    SQLEXPRESS followed by a NUL, and the TLS handshake goes through. *)
Definition sqlexpress : MSSQL.Server string :=
  mssql_server
    (MSSQL.ReplyOptions (<[instance_token := sqlexpress0]> (<[1%N := [x01]]> ∅))
       MSSQL.EncryptModeOn)
    None.

(** No dial connects: the dialer group is refused, its L4 dialer times
    out. *)
Definition dial_unreachable : DialerGroup :=
  {| Dial := λ _, Some (ErrOther "connection refused");
     L4Dialer := Some (λ _, Some (ErrOther "i/o timeout")) |}.

(** The INSTANCE option of a default instance: a single NUL. *)
Definition default_instance_options : gmap N (list byte) :=
  <[instance_token := [x00]]> ∅.

Definition default_instance : MSSQL.Server string :=
  mssql_server
    (MSSQL.ReplyOptions default_instance_options MSSQL.EncryptModeNotSupported)
    None.

(** An INSTANCE option without NUL, CR or LF at either end. *)
Definition clean_instance_options : gmap N (list byte) :=
  <[instance_token := [x4d; x53; x53; x51; x4c]]> ∅.


(** The server requires encryption and the TLS handshake fails. *)
Definition tls_fails : MSSQL.Server string :=
  mssql_server
    (MSSQL.ReplyOptions clean_instance_options MSSQL.EncryptModeRequired)
    (Some (ErrOther "tls: handshake failure")).

(** A peer that resets the connection before it sends a byte: the grab
    fails and leaves the log as [new] made it. *)
Definition telnet_silent : Telnet.World (option Telnet.TelnetLog) :=
  {| Telnet.TryGetScanStatus := classify;
     Telnet.GetTelnetBanner := λ _ _,
       (Telnet.new_TelnetLog, Some (ErrOther "connection reset"));
     Telnet.getResult := Telnet.getResult_model |}.

(** A grab that fails on a cut control sequence after two banner bytes. *)
Definition telnet_cut_pointer : Telnet.World (option Telnet.TelnetLog) :=
  Telnet.world_of_peer classify Telnet.getResult_model (λ _, telnet_cut).

End Inputs.

(* ===================================================================== *)
(** * Properties                                                          *)
(* ===================================================================== *)

Import Zgrab2.

(** Unfolds one scan down to the oracles of its world. *)
Ltac scan_unfold :=
  unfold run, func, run_defers, defer_close, CloseConnAndHandleError,
    dial, emit, init, mbind, mret, M_bind, M_ret; cbn.

(** ** Counting in traces *)

Lemma count_app {A} (p : A -> bool) (l1 l2 : list A) :
  count p (l1 ++ l2) = count p l1 + count p l2.
Proof.
  induction l1 as [|x l1 IH]; cbn; [reflexivity|].
  rewrite IH. lia.
Qed.

Lemma count_protocol_only {P} (p : event P -> bool) (l : list P) :
  (forall x, p (EvProto x) = false) -> count p (map EvProto l) = 0.
Proof.
  intros Hp. induction l as [|x l IH]; cbn; [reflexivity|].
  rewrite Hp, IH. reflexivity.
Qed.

Lemma existsb_protocol_only {P} (p : event P -> bool) (l : list P) :
  (forall x, p (EvProto x) = false) -> existsb p (map EvProto l) = false.
Proof.
  intros Hp. induction l as [|x l IH]; cbn; [reflexivity|].
  rewrite Hp, IH. reflexivity.
Qed.

(* --------------------------------------------------------------------- *)
(** ** SMB: the retry policy                                              *)
(* --------------------------------------------------------------------- *)

Section SMB_retry.
Import SMB.
Context {SMBLog : Type}.
Implicit Types (w : World SMBLog) (config : Flags) (dialGroup : DialerGroup).
Implicit Types (target : ScanTarget).

(** C1, as the code has it.  When the first negotiation fails with a nil
    log, [Scan] closes that connection and dials again.  If the new dial
    succeeds the negotiator runs a second and last time, on the new
    connection, with its third argument now true and the verbose flag as
    configured (the same in both calls), and the triple returned is that of
    the second attempt alone.  If the new dial fails the negotiator has run
    once, and [Scan] returns the status of the dial error, a nil result and
    the wrapped dial error. *)
Theorem C1_retry_after_nil_log w config dialGroup target e :
  Dial dialGroup 0 = None ->
  GetSMBLog w 0 (SetupSession config) false (Verbose config) = (None, Some e) ->
  let '(ret, t) := run (Scan w config dialGroup target) in
  let session := SetupSession config in
  let verbose := Verbose config in
  match Dial dialGroup 1 with
  | None =>
      t = [EvDialOk 0; EvProto (CallGetSMBLog 0 session false verbose);
           EvClose 0; EvDialOk 1;
           EvProto (CallGetSMBLog 1 session true verbose);
           EvClose 1; EvClose 0] /\
      negotiations t = 2 /\
      ret = second_attempt w config 1
  | Some err2 =>
      t = [EvDialOk 0; EvProto (CallGetSMBLog 0 session false verbose);
           EvClose 0; EvDialFail err2; EvClose 0] /\
      negotiations t = 1 /\
      ret = (TryGetScanStatus w err2, None,
             Some (ErrWrap ("could not establish connection to SMB server "
                            ++ target_String target ++ " on 2nd attempt")
                           err2))
  end.
Proof.
  intros Hdial Hfirst.
  unfold Scan, callGetSMBLog, second_attempt. scan_unfold.
  rewrite Hdial. cbn. rewrite Hfirst. cbn.
  destruct (Dial dialGroup 1) as [err2|]; cbn.
  - auto.
  - destruct (GetSMBLog w 1 (SetupSession config) true (Verbose config))
      as [result2 [e2|]]; cbn; auto.
Qed.

(** C6.  When the first negotiation fails but leaves a log, there is no
    retry: one dial, one negotiator call, one close, and the partial log is
    returned with the error. *)
Theorem C6_no_retry_with_partial_log w config dialGroup target log e :
  Dial dialGroup 0 = None ->
  GetSMBLog w 0 (SetupSession config) false (Verbose config)
    = (Some log, Some e) ->
  let '(ret, t) := run (Scan w config dialGroup target) in
  t = [EvDialOk 0;
       EvProto (CallGetSMBLog 0 (SetupSession config) false (Verbose config));
       EvClose 0] /\
  negotiations t = 1 /\
  dials t = 1 /\
  ret = (TryGetScanStatus w e, Some log, Some e).
Proof.
  intros Hdial Hfirst.
  unfold Scan, callGetSMBLog. scan_unfold.
  rewrite Hdial. cbn. rewrite Hfirst. cbn. auto.
Qed.

End SMB_retry.

(** The retry theorem on a scan whose first connection is reset and whose
    second negotiation succeeds. *)
Lemma C1_retry_after_nil_log_witness :
  Dial Inputs.dial_ok 0 = None /\
  SMB.GetSMBLog Inputs.smb_reset_first 0 false false false
    = (None, Some (ErrOther "connection reset")) /\
  let '(ret, t) :=
    run (SMB.Scan Inputs.smb_reset_first Inputs.smb_quiet Inputs.dial_ok
           Inputs.target0) in
  t = [EvDialOk 0; EvProto (SMB.CallGetSMBLog 0 false false false);
       EvClose 0; EvDialOk 1;
       EvProto (SMB.CallGetSMBLog 1 false true false);
       EvClose 1; EvClose 0] /\
  SMB.negotiations t = 2 /\
  ret = (SCAN_SUCCESS, Some 1, None).
Proof.
  split; [reflexivity|]. split; [reflexivity|].
  exact (C1_retry_after_nil_log Inputs.smb_reset_first Inputs.smb_quiet
           Inputs.dial_ok Inputs.target0 (ErrOther "connection reset")
           eq_refl eq_refl).
Defined.

(** The sentence as the spec words it fails twice over.  When the second
    dial is refused the negotiator has run once, not twice.  When the second
    dial connects and the verbose flag is off, the second call has verbose
    off as well: what the retry sets is the third argument. *)
Lemma C1_retry_as_stated_fails :
  ~ SMB.retry_as_stated Inputs.smb_reset_first Inputs.smb_quiet
      Inputs.dial_once Inputs.target0 /\
  ~ SMB.retry_as_stated Inputs.smb_reset_first Inputs.smb_quiet
      Inputs.dial_ok Inputs.target0.
Proof.
  split; intros H.
  - destruct H as [Hcount _].
    + split; [reflexivity | eexists; reflexivity].
    + vm_compute in Hcount. discriminate Hcount.
  - destruct H as (_ & (c & session & third & Hcall) & _).
    + split; [reflexivity | eexists; reflexivity].
    + vm_compute in Hcall. discriminate Hcall.
Qed.

(** The no-retry theorem on a scan whose negotiation times out after the
    negotiate response. *)
Lemma C6_no_retry_with_partial_log_witness :
  Dial Inputs.dial_ok 0 = None /\
  SMB.GetSMBLog Inputs.smb_partial 0 false false false
    = (Some 7, Some (ErrOther "i/o timeout")) /\
  let '(ret, t) :=
    run (SMB.Scan Inputs.smb_partial Inputs.smb_quiet Inputs.dial_ok
           Inputs.target0) in
  t = [EvDialOk 0; EvProto (SMB.CallGetSMBLog 0 false false false);
       EvClose 0] /\
  SMB.negotiations t = 1 /\
  dials t = 1 /\
  ret = (SCAN_TIMEOUT, Some 7, Some (ErrOther "i/o timeout")).
Proof.
  split; [reflexivity|]. split; [reflexivity|].
  exact (C6_no_retry_with_partial_log Inputs.smb_partial Inputs.smb_quiet
           Inputs.dial_ok Inputs.target0 7 (ErrOther "i/o timeout")
           eq_refl eq_refl).
Defined.

(* --------------------------------------------------------------------- *)
(** ** Ownership of connections                                           *)
(* --------------------------------------------------------------------- *)

Lemma emit_all_trace (l : list MSSQL.mssql_event) (s : state MSSQL.mssql_event) :
  MSSQL.emit_all l s
  = (tt, mkState (st_dials s) (st_trace s ++ map EvProto l) (st_defers s)).
Proof.
  revert s. induction l as [|e l IH]; intros s; cbn.
  - rewrite app_nil_r. destruct s; reflexivity.
  - unfold mbind, M_bind, emit. rewrite IH. cbn.
    rewrite <- app_assoc. reflexivity.
Qed.

Lemma existsb_app_protocol {P} (p : event P -> bool) (l1 : list (event P))
    (io : list P) (l2 : list (event P)) :
  (forall x, p (EvProto x) = false) ->
  existsb p (l1 ++ map EvProto io ++ l2) = existsb p (l1 ++ l2).
Proof.
  intros Hp. rewrite !existsb_app, (existsb_protocol_only p io Hp).
  reflexivity.
Qed.

Lemma count_app_protocol {P} (p : event P -> bool) (l1 : list (event P))
    (io : list P) (l2 : list (event P)) :
  (forall x, p (EvProto x) = false) ->
  count p (l1 ++ map EvProto io ++ l2) = count p (l1 ++ l2).
Proof.
  intros Hp. rewrite !count_app, (count_protocol_only p io Hp).
  reflexivity.
Qed.

(** An MSSQL scan that got its connection: what it returns and the trace
    it leaves. *)
Lemma mssql_run_connected {TLSLog} (w : MSSQL.World TLSLog)
    (config : MSSQL.Flags) (dialGroup : DialerGroup) (target : ScanTarget)
    (d : dialer) :
  L4Dialer dialGroup = Some d -> d 0 = None ->
  run (MSSQL.Scan w config dialGroup target)
  = (MSSQL.after_handshake w (MSSQL.handshake_of w config),
     ([EvDialOk 0]
      ++ map EvProto (MSSQL.h_io (MSSQL.handshake_of w config))
      ++ [EvClose 0])%list).
Proof.
  intros Hd Hdial.
  unfold MSSQL.Scan, MSSQL.callHandshake, MSSQL.handshake_of,
    MSSQL.defer_sql_Close. scan_unfold.
  rewrite Hd. cbn. rewrite Hdial. cbn.
  rewrite emit_all_trace. cbn. reflexivity.
Qed.

(** C4, as the code has it.  Every connection a scan opens is closed
    before the scan returns, and nothing else is closed.  The Telnet and the
    MSSQL scan close their connection exactly once.  So does the SMB scan,
    for each of its connections, except on its retry path: there the first
    connection is closed by the explicit call before the second dial and
    once more by the deferred call, twice in all, and the second connection
    exactly once. *)
Theorem C4_connections_released :
  (forall View (w : Telnet.World View) config dialGroup target c,
      let t := snd (run (Telnet.Scan w config dialGroup target)) in
      closes c t = if opened c t then 1 else 0) /\
  (forall TLSLog (w : MSSQL.World TLSLog) config dialGroup target c,
      let t := snd (run (MSSQL.Scan w config dialGroup target)) in
      closes c t = if opened c t then 1 else 0) /\
  (forall SMBLog (w : SMB.World SMBLog) config dialGroup target c,
      let t := snd (run (SMB.Scan w config dialGroup target)) in
      closes c t =
        if opened c t
        then if SMB.retried w config dialGroup && Nat.eqb c 0 then 2 else 1
        else 0).
Proof.
  split; [|split].
  - intros View w config dialGroup target c.
    unfold Telnet.Scan, Telnet.callGetTelnetBanner. scan_unfold.
    destruct (Dial dialGroup 0) as [err|]; cbn; [reflexivity|].
    destruct (Telnet.GetTelnetBanner w 0 (Telnet.MaxReadSize config))
      as [log [e|]]; cbn;
      [destruct (Telnet.ForceBanner config && _); cbn|];
      unfold closes, opened; cbn; destruct c; reflexivity.
  - intros TLSLog w config dialGroup target c. cbv zeta.
    destruct (L4Dialer dialGroup) as [d|] eqn:Hd.
    + destruct (d 0) as [err|] eqn:Hdial.
      * unfold MSSQL.Scan. scan_unfold. rewrite Hd. cbn. rewrite Hdial.
        reflexivity.
      * rewrite (mssql_run_connected w config dialGroup target d Hd Hdial).
        cbn [snd].
        unfold closes, opened.
        rewrite existsb_app_protocol, count_app_protocol by reflexivity.
        cbn. destruct c; reflexivity.
    + unfold MSSQL.Scan. scan_unfold. rewrite Hd. reflexivity.
  - intros SMBLog w config dialGroup target c.
    unfold SMB.retried, SMB.Scan, SMB.callGetSMBLog. scan_unfold.
    destruct (Dial dialGroup 0) as [err|]; cbn; [reflexivity|].
    destruct (SMB.GetSMBLog w 0 (SMB.SetupSession config) false
                (SMB.Verbose config)) as [[log|] [e|]]; cbn;
      try (unfold closes, opened; cbn; destruct c; reflexivity).
    destruct (Dial dialGroup 1) as [err2|]; cbn.
    + unfold closes, opened; cbn. destruct c; reflexivity.
    + destruct (SMB.GetSMBLog w 1 (SMB.SetupSession config) true
                  (SMB.Verbose config)) as [result2 [e2|]]; cbn;
        unfold closes, opened; cbn; destruct c as [|[|c]]; reflexivity.
Qed.

(** On the retry path of the SMB scan the first connection is closed
    twice: "exactly once" does not hold of it. *)
Lemma C4_released_exactly_once_fails :
  ~ released_exactly_once
      (snd (run (SMB.Scan Inputs.smb_reset_first Inputs.smb_quiet
                   Inputs.dial_ok Inputs.target0))).
Proof.
  intros H. specialize (H 0 eq_refl). vm_compute in H. discriminate H.
Qed.

(* --------------------------------------------------------------------- *)
(** ** [strings.Trim]                                                     *)
(* --------------------------------------------------------------------- *)

Section Trimming.
Import MSSQL.
Variable cutset : string.

Lemma string_app_nil (s : string) : EmptyString ++ s = s.
Proof. reflexivity. Qed.

Lemma string_app_cons (c : ascii) (a b : string) :
  String c a ++ b = String c (a ++ b).
Proof. reflexivity. Qed.

Lemma string_app_assoc (a b c : string) : (a ++ b) ++ c = a ++ b ++ c.
Proof.
  induction a as [|x a IH]; [reflexivity|].
  rewrite !string_app_cons, IH. reflexivity.
Qed.

Lemma TrimRight_split (s : string) :
  exists r,
    s = TrimRight s cutset ++ r /\
    all_in cutset r = true /\
    ends_in cutset (TrimRight s cutset) = false.
Proof.
  induction s as [|c s (r & Hs & Hr & Hend)].
  - exists EmptyString. auto.
  - cbn [TrimRight]. destruct (TrimRight s cutset) as [|a s0].
    + rewrite string_app_nil in Hs. subst r.
      destruct (in_cutset cutset c) eqn:Hc.
      * exists (String c s). cbn. rewrite Hc, Hr. auto.
      * exists s. cbn. rewrite Hc. auto.
    + exists r. rewrite string_app_cons, <- Hs. auto.
Qed.

Lemma TrimLeft_split (s : string) :
  exists l,
    s = l ++ TrimLeft s cutset /\
    all_in cutset l = true /\
    starts_in cutset (TrimLeft s cutset) = false.
Proof.
  induction s as [|c s (l & Hs & Hl & Hstart)].
  - exists EmptyString. auto.
  - cbn [TrimLeft]. destruct (in_cutset cutset c) eqn:Hc.
    + exists (String c l). rewrite string_app_cons, <- Hs. cbn.
      rewrite Hc, Hl. auto.
    + exists EmptyString. cbn. auto.
Qed.

Lemma ends_in_tail (c : ascii) (s : string) :
  ends_in cutset (String c s) = false -> ends_in cutset s = false.
Proof. destruct s; cbn; auto. Qed.

Lemma TrimLeft_ends (s : string) :
  ends_in cutset s = false -> ends_in cutset (TrimLeft s cutset) = false.
Proof.
  induction s as [|c s IH]; intros H; [reflexivity|].
  cbn [TrimLeft]. destruct (in_cutset cutset c); [|exact H].
  apply IH, (ends_in_tail c), H.
Qed.

(** [Trim] removes exactly the leading and trailing cutset characters. *)
Lemma Trim_trimmed (s : string) : trimmed_of cutset s (Trim s cutset).
Proof.
  destruct (TrimRight_split s) as (r & Hs & Hr & Hend).
  destruct (TrimLeft_split (TrimRight s cutset)) as (l & Hl & Hlin & Hstart).
  exists l, r. unfold Trim. repeat split; auto.
  - rewrite <- string_app_assoc, <- Hl. exact Hs.
  - apply TrimLeft_ends, Hend.
Qed.

End Trimming.

(** The cutset of [Scan] is NUL, CR and LF, no more and no less. *)
Lemma in_instance_cutset (c : ascii) :
  MSSQL.in_cutset MSSQL.instance_cutset c = MSSQL.is_NUL_CR_LF c.
Proof. destruct c as [[] [] [] [] [] [] [] []]; reflexivity. Qed.

Lemma all_in_instance_cutset (s : string) :
  MSSQL.all_in MSSQL.instance_cutset s = MSSQL.only_NUL_CR_LF s.
Proof.
  induction s as [|c s IH]; [reflexivity|].
  cbn [MSSQL.all_in MSSQL.only_NUL_CR_LF].
  rewrite in_instance_cutset, IH. reflexivity.
Qed.

Lemma starts_in_instance_cutset (s : string) :
  MSSQL.starts_in MSSQL.instance_cutset s = MSSQL.starts_with_NUL_CR_LF s.
Proof. destruct s; [reflexivity | apply in_instance_cutset]. Qed.

Lemma ends_in_instance_cutset (s : string) :
  MSSQL.ends_in MSSQL.instance_cutset s = MSSQL.ends_with_NUL_CR_LF s.
Proof.
  induction s as [|c s IH]; [reflexivity|].
  destruct s as [|c' s]; [apply in_instance_cutset | exact IH].
Qed.

(** What [Scan] makes of the INSTANCE bytes: the string without its
    leading and trailing NUL, CR and LF. *)
Lemma Trim_instance (s : string) :
  MSSQL.without_outer_NUL_CR_LF s (MSSQL.Trim s MSSQL.instance_cutset).
Proof.
  destruct (Trim_trimmed MSSQL.instance_cutset s)
    as (l & r & Hs & Hl & Hr & Hstart & Hend).
  exists l, r.
  rewrite <- !all_in_instance_cutset, <- starts_in_instance_cutset,
    <- ends_in_instance_cutset. auto.
Qed.

(* --------------------------------------------------------------------- *)
(** ** MSSQL: what is attached to which status                            *)
(* --------------------------------------------------------------------- *)

Section MSSQL_scan.
Import MSSQL.
Context {TLSLog : Type}.
Implicit Types (w : World TLSLog) (config : Flags) (dialGroup : DialerGroup).
Implicit Types (target : ScanTarget) (d : dialer).

(** C9.  Without an L4 dialer [Scan] returns invalid-inputs, a nil result
    and an error, and has dialled nothing: the trace is empty. *)
Theorem C9_missing_l4_dialer w config target (tcp : dialer) :
  run (Scan w config {| Dial := tcp; L4Dialer := None |} target)
  = ((SCAN_INVALID_INPUTS, None,
      Some (ErrOther "l4 dialer is required for mssql")), []).
Proof. reflexivity. Qed.

(** C2.  When the handshake returns an error, [Scan] returns that error,
    and the result it attaches is nil exactly when no prelogin options were
    decoded and no packet with a valid TDS header was read; otherwise the
    result filled so far is attached, which may hold no more than the
    encrypt mode. *)
Theorem C2_result_on_handshake_error w config dialGroup target d e :
  L4Dialer dialGroup = Some d -> d 0 = None ->
  h_err (handshake_of w config) = Some e ->
  let sql := h_sql (handshake_of w config) in
  let '(status, result, err) := fst (run (Scan w config dialGroup target)) in
  err = Some e /\
  (result = None <->
     PreloginOptions_ sql = None /\ readValidTDSPacket sql = false) /\
  (result <> None ->
     result
     = Some (fill_result w sql (h_encryptMode (handshake_of w config)))).
Proof.
  intros Hd Hdial He.
  rewrite (mssql_run_connected w config dialGroup target d Hd Hdial).
  cbn [fst]. unfold after_handshake. rewrite He.
  assert (Hres :
    forall result : option (ScanResults TLSLog),
      result =
        (if is_nil (PreloginOptions_ (h_sql (handshake_of w config)))
            && negb (readValidTDSPacket (h_sql (handshake_of w config)))
         then None
         else Some (fill_result w (h_sql (handshake_of w config))
                      (h_encryptMode (handshake_of w config)))) ->
      (result = None <->
         PreloginOptions_ (h_sql (handshake_of w config)) = None /\
         readValidTDSPacket (h_sql (handshake_of w config)) = false) /\
      (result <> None ->
         result = Some (fill_result w (h_sql (handshake_of w config))
                          (h_encryptMode (handshake_of w config))))).
  { intros result ->.
    destruct (PreloginOptions_ (h_sql (handshake_of w config))) as [opts|];
      destruct (readValidTDSPacket (h_sql (handshake_of w config))); cbn;
      (split; [split; [intros H; try discriminate H; auto
                      | intros [H1 H2]; try discriminate H1;
                        try discriminate H2; auto]
              | intros H; try reflexivity; exfalso; apply H; reflexivity]). }
  destruct (errors_Is e ErrNoServerEncryption);
    [|destruct (errors_Is e ErrServerRequiresEncryption)];
    (split; [reflexivity | apply Hres; reflexivity]).
Qed.

(** C7.  When the handshake decoded prelogin options, a result is
    attached, and its InstanceName is nil exactly when the options hold no
    INSTANCE entry.  When they hold one, the name is its bytes without their
    leading and trailing NUL, CR and LF characters (what [strings.Trim]
    makes of them): an INSTANCE of SQLEXPRESS followed by NUL gives the name
    SQLEXPRESS. *)
Theorem C7_instance_name w config dialGroup target d opts :
  L4Dialer dialGroup = Some d -> d 0 = None ->
  PreloginOptions_ (h_sql (handshake_of w config)) = Some opts ->
  let '(status, result, err) := fst (run (Scan w config dialGroup target)) in
  exists r,
    result = Some r /\
    (InstanceName r = None <-> opts !! PreloginInstance w = None) /\
    (forall name,
        opts !! PreloginInstance w = Some name ->
        exists v,
          InstanceName r = Some v /\
          v = Trim (string_of_list_byte name) instance_cutset /\
          without_outer_NUL_CR_LF (string_of_list_byte name) v) /\
    (opts !! PreloginInstance w
       = Some [x53; x51; x4c; x45; x58; x50; x52; x45; x53; x53; x00] ->
     InstanceName r = Some "SQLEXPRESS").
Proof.
  intros Hd Hdial Hopts.
  rewrite (mssql_run_connected w config dialGroup target d Hd Hdial).
  cbn [fst]. unfold after_handshake.
  assert (Hfill :
    let r := fill_result w (h_sql (handshake_of w config))
               (h_encryptMode (handshake_of w config)) in
    (InstanceName r = None <-> opts !! PreloginInstance w = None) /\
    (forall name,
        opts !! PreloginInstance w = Some name ->
        exists v,
          InstanceName r = Some v /\
          v = Trim (string_of_list_byte name) instance_cutset /\
          without_outer_NUL_CR_LF (string_of_list_byte name) v) /\
    (opts !! PreloginInstance w
       = Some [x53; x51; x4c; x45; x58; x50; x52; x45; x53; x53; x00] ->
     InstanceName r = Some "SQLEXPRESS")).
  { unfold fill_result. rewrite Hopts. cbn.
    destruct (opts !! PreloginInstance w) as [name|].
    - split; [split; intros H; discriminate H|]. split.
      + intros name' [= <-]. eexists.
        split; [reflexivity|]. split; [reflexivity | apply Trim_instance].
      + intros [= ->]. reflexivity.
    - split; [split; reflexivity|]. split; intros; discriminate. }
  rewrite Hopts. cbn [is_nil andb].
  destruct (h_err (handshake_of w config)) as [e|].
  - destruct (errors_Is e ErrNoServerEncryption);
      [|destruct (errors_Is e ErrServerRequiresEncryption)];
      (eexists; split; [reflexivity | exact Hfill]).
  - eexists; split; [reflexivity | exact Hfill].
Qed.

(** C3.  A handshake error that is, or wraps, one of the two encryption
    sentinels makes [Scan] return application-error, which is no
    network-failure status, together with that error; and a result that is
    attached carries the encrypt mode the handshake returned.  Against a
    server that answers NOT_SUPPORTED to a client asking for ON, the
    handshake ends with [ErrNoServerEncryption] and the server's mode, so
    the result is attached and its EncryptMode is NOT_SUPPORTED. *)
Theorem C3_encryption_sentinels w config dialGroup target d :
  L4Dialer dialGroup = Some d -> d 0 = None ->
  (forall e,
      h_err (handshake_of w config) = Some e ->
      errors_Is e ErrNoServerEncryption
        || errors_Is e ErrServerRequiresEncryption = true ->
      let '(status, result, err) :=
        fst (run (Scan w config dialGroup target)) in
      status = SCAN_APPLICATION_ERROR /\
      is_network_failure status = false /\
      err = Some e /\
      forall r, result = Some r ->
                res_EncryptMode r = Some (h_encryptMode (handshake_of w config)))
  /\
  (forall srv opts,
      Handshake w = Handshake_model srv ->
      write_error srv = None ->
      prelogin_reply srv = ReplyOptions opts EncryptModeNotSupported ->
      getEncryptMode (EncryptMode_flag config) = EncryptModeOn ->
      let '(status, result, err) :=
        fst (run (Scan w config dialGroup target)) in
      status = SCAN_APPLICATION_ERROR /\
      err = Some ErrNoServerEncryption /\
      exists r, result = Some r /\
                res_EncryptMode r = Some EncryptModeNotSupported).
Proof.
  intros Hd Hdial.
  rewrite (mssql_run_connected w config dialGroup target d Hd Hdial).
  cbn [fst]. unfold after_handshake. split.
  - intros e He Hsentinel. rewrite He.
    assert (Hmode :
      forall r,
        (if is_nil (PreloginOptions_ (h_sql (handshake_of w config)))
            && negb (readValidTDSPacket (h_sql (handshake_of w config)))
         then None
         else Some (fill_result w (h_sql (handshake_of w config))
                      (h_encryptMode (handshake_of w config)))) = Some r ->
        res_EncryptMode r = Some (h_encryptMode (handshake_of w config))).
    { intros r. destruct (_ && _); [discriminate|]. intros [= <-].
      unfold fill_result.
      destruct (tlsConn _), (PreloginOptions_ _); reflexivity. }
    destruct (errors_Is e ErrNoServerEncryption); [repeat split; auto|].
    destruct (errors_Is e ErrServerRequiresEncryption); [repeat split; auto|].
    discriminate Hsentinel.
  - intros srv opts Hw Hwrite Hreply Hclient.
    unfold handshake_of. rewrite Hw. unfold Handshake_model.
    rewrite Hwrite, Hreply, Hclient. cbn.
    repeat split; auto. eexists. split; [reflexivity|].
    unfold fill_result. cbn. reflexivity.
Qed.

(** C5.  When the server's ENCRYPTION option is NOT_SUPPORTED the handshake
    is over once the PRELOGIN response is read: it has written the PRELOGIN
    packet and nothing else, it leaves no TLS connection, and it returns the
    server's mode, without an error unless the client had asked for ON.  The
    whole scan then leaves a trace without a single TLS handshake packet. *)
Theorem C5_no_tls_when_not_supported w config dialGroup target d srv opts
    (sql : Connection TLSLog) flag :
  write_error srv = None ->
  prelogin_reply srv = ReplyOptions opts EncryptModeNotSupported ->
  (let h := Handshake_model srv sql flag in
   h_io h = [WriteTDS (rawConn sql) PacketPrelogin prelogin_payload;
             ReadTDS (rawConn sql)] /\
   tlsConn (h_sql h) = tlsConn sql /\
   h_encryptMode h = EncryptModeNotSupported /\
   h_err h = (if EncryptMode_eqb (getEncryptMode flag) EncryptModeOn
              then Some ErrNoServerEncryption else None)) /\
  (L4Dialer dialGroup = Some d -> d 0 = None ->
   Handshake w = Handshake_model srv ->
   let t := snd (run (Scan w config dialGroup target)) in
   t = [EvDialOk 0;
        EvProto (WriteTDS 0 PacketPrelogin prelogin_payload);
        EvProto (ReadTDS 0); EvClose 0] /\
   tls_writes t = 0).
Proof.
  intros Hwrite Hreply. split.
  - unfold Handshake_model. rewrite Hwrite, Hreply. cbn. auto.
  - intros Hd Hdial Hw.
    rewrite (mssql_run_connected w config dialGroup target d Hd Hdial).
    cbn [snd]. unfold handshake_of. rewrite Hw. unfold Handshake_model.
    rewrite Hwrite, Hreply. cbn. auto.
Qed.

End MSSQL_scan.

(* --------------------------------------------------------------------- *)
(** ** Telnet: the banner                                                 *)
(* --------------------------------------------------------------------- *)

Section Telnet_scan.
Import Telnet.

Lemma ReadBanner_from_plain (b : byte) (rest : list byte)
    (ending : option error) (room : nat) :
  plain b = true ->
  ReadBanner_from (b :: rest) ending (S room)
  = add_banner b (ReadBanner_from rest ending room).
Proof. destruct b; intros H; first [reflexivity | discriminate H]. Qed.

(** A stream of plain bytes that is at least as long as the ceiling is
    read up to the ceiling, without an error. *)
Lemma ReadBanner_from_ceiling (input : list byte) (ending : option error)
    (room : nat) :
  forallb plain input = true ->
  room <= length input ->
  ReadBanner_from input ending room
  = {| r_log := {| Banner := take room input; Options := [] |};
       r_replies := []; r_err := None |}.
Proof.
  revert room. induction input as [|b rest IH]; intros room Hplain Hroom.
  - cbn in Hroom. assert (room = 0) as -> by lia. reflexivity.
  - destruct room as [|room]; [reflexivity|].
    cbn in Hplain, Hroom. apply andb_prop in Hplain as [Hb Hrest].
    rewrite ReadBanner_from_plain by exact Hb.
    rewrite IH by (auto; lia). reflexivity.
Qed.

(** C8.  A stream of N plain bytes followed by the end of the stream, read
    with a ceiling M below N, gives the first M bytes as the banner, so a
    banner of length exactly M, and no error; the scan on such a peer
    succeeds with that banner. *)
Theorem C8_banner_cut_at_ceiling (s : stream) (M : nat) :
  forallb plain (bytes s) = true ->
  ending s = None ->
  M < length (bytes s) ->
  let r := ReadBanner s M in
  Banner (r_log r) = take M (bytes s) /\
  length (Banner (r_log r)) = M /\
  r_err r = None /\
  forall (View : Type) classify (view : TelnetLog -> View) config dialGroup
         target,
    Dial dialGroup 0 = None ->
    MaxReadSize config = Z.of_nat M ->
    fst (run (Scan (world_of_peer classify view (λ _, s)) config dialGroup
                target))
    = (SCAN_SUCCESS,
       @ResultLog View {| Banner := take M (bytes s); Options := [] |}, None).
Proof.
  intros Hplain _ HM. unfold ReadBanner.
  rewrite (ReadBanner_from_ceiling (bytes s) (ending s) M Hplain) by lia.
  cbn. repeat split.
  - rewrite length_take. lia.
  - intros View classify view config dialGroup target Hdial Hmax.
    unfold Scan, callGetTelnetBanner. scan_unfold.
    rewrite Hdial. cbn. rewrite Hmax, Nat2Z.id. unfold ReadBanner.
    rewrite (ReadBanner_from_ceiling (bytes s) (ending s) M Hplain) by lia.
    reflexivity.
Qed.

(** C10, as the code has it.  When the banner grab returns an error,
    [Scan] returns that error with its status.  It attaches the log itself,
    which is never nil, exactly when the force-banner flag is set and the
    banner held so far is not empty; otherwise it attaches what [getResult]
    makes of the log.  So the result is a nil pointer exactly when the flag
    does not apply and [getResult] answers nil, which it does for a log
    without a banner byte and without a negotiated option. *)
Theorem C10_result_on_banner_error (w : World (option TelnetLog)) config
    dialGroup target log e :
  Dial dialGroup 0 = None ->
  GetTelnetBanner w 0 (MaxReadSize config) = (log, Some e) ->
  let '(status, result, err) := fst (run (Scan w config dialGroup target)) in
  let forced := ForceBanner config = true /\ 0 < length (Banner log) in
  status = TryGetScanStatus w e /\
  err = Some e /\
  (forced -> result = ResultLog log) /\
  (~ forced -> result = ResultView (getResult w log)) /\
  (result_is_nil result = true <-> ~ forced /\ getResult w log = None) /\
  (getResult w = getResult_model ->
   Banner log = [] -> Options log = [] ->
   result_is_nil result = true).
Proof.
  intros Hdial Hgrab.
  unfold Scan, callGetTelnetBanner. scan_unfold.
  rewrite Hdial. cbn. rewrite Hgrab. cbn.
  destruct (ForceBanner config); cbn.
  - destruct (Banner log) as [|b banner] eqn:Hbanner; cbn.
    + split; [reflexivity|]. split; [reflexivity|].
      split; [intros [_ H]; lia|]. split; [reflexivity|]. split.
      * destruct (getResult w log); cbn; split;
          [discriminate | intros [_ H]; discriminate H
          | intros _; split; [intros [_ H]; lia | reflexivity] | reflexivity].
      * intros Hmodel _ Hoptions. rewrite Hmodel.
        unfold getResult_model, has_signal. rewrite Hbanner, Hoptions.
        reflexivity.
    + split; [reflexivity|]. split; [reflexivity|].
      split; [reflexivity|]. split.
      * intros H. exfalso. apply H. split; [reflexivity | lia].
      * split; [|intros _ H; discriminate H].
        split; [discriminate|].
        intros [H _]. exfalso. apply H. split; [reflexivity | lia].
  - split; [reflexivity|]. split; [reflexivity|].
    split; [intros [H _]; discriminate H|]. split; [reflexivity|]. split.
    + destruct (getResult w log); cbn; split;
        [discriminate | intros [_ H]; discriminate H
        | intros _; split; [intros [H _]; discriminate H | reflexivity]
        | reflexivity].
    + intros Hmodel Hbanner Hoptions. rewrite Hmodel.
      unfold getResult_model, has_signal. rewrite Hbanner, Hoptions.
      reflexivity.
Qed.

End Telnet_scan.

(* --------------------------------------------------------------------- *)
(** ** The theorems on concrete scans                                     *)
(* --------------------------------------------------------------------- *)

(** A peer that does not speak TDS: the handshake error comes with a nil
    result. *)
Lemma C2_result_on_handshake_error_witness :
  let w := Inputs.mssql_world Inputs.not_mssql in
  let config := Inputs.mssql_flags "ENCRYPT_ON" in
  L4Dialer Inputs.dial_ok = Some (λ _, None) /\
  MSSQL.h_err (MSSQL.handshake_of w config)
    = Some (ErrOther "invalid TDS header") /\
  let sql := MSSQL.h_sql (MSSQL.handshake_of w config) in
  let '(status, result, err) :=
    fst (run (MSSQL.Scan w config Inputs.dial_ok Inputs.target0)) in
  err = Some (ErrOther "invalid TDS header") /\
  (result = None <->
     MSSQL.PreloginOptions_ sql = None /\
     MSSQL.readValidTDSPacket sql = false) /\
  (result <> None ->
     result
     = Some (MSSQL.fill_result w sql
               (MSSQL.h_encryptMode (MSSQL.handshake_of w config)))).
Proof.
  split; [reflexivity|]. split; [reflexivity|].
  exact (C2_result_on_handshake_error
           (Inputs.mssql_world Inputs.not_mssql)
           (Inputs.mssql_flags "ENCRYPT_ON") Inputs.dial_ok Inputs.target0
           (λ _, None) (ErrOther "invalid TDS header")
           eq_refl eq_refl eq_refl).
Defined.

(** The two outcomes side by side: no TDS packet, nil result; a TDS packet
    with a broken option table, a result that holds the encrypt mode only. *)
Example result_nil_or_empty :
  snd (fst (fst (run (MSSQL.Scan (Inputs.mssql_world Inputs.not_mssql)
                        (Inputs.mssql_flags "ENCRYPT_ON") Inputs.dial_ok
                        Inputs.target0))))
  = None /\
  snd (fst (fst (run (MSSQL.Scan (Inputs.mssql_world Inputs.broken_options)
                        (Inputs.mssql_flags "ENCRYPT_ON") Inputs.dial_ok
                        Inputs.target0))))
  = Some {| MSSQL.Version := ""; MSSQL.InstanceName := None;
            MSSQL.res_PreloginOptions := None;
            MSSQL.res_EncryptMode := Some MSSQL.EncryptModeUnknown;
            MSSQL.res_TLSLog := None |}.
Proof. split; reflexivity. Qed.

(** Client ON against a server that cannot encrypt. *)
Lemma C3_encryption_sentinels_witness :
  let w := Inputs.mssql_world Inputs.no_encryption in
  let config := Inputs.mssql_flags "ENCRYPT_ON" in
  let '(status, result, err) :=
    fst (run (MSSQL.Scan w config Inputs.dial_ok Inputs.target0)) in
  (status = SCAN_APPLICATION_ERROR /\
   is_network_failure status = false /\
   err = Some ErrNoServerEncryption /\
   forall r, result = Some r ->
             MSSQL.res_EncryptMode r
             = Some (MSSQL.h_encryptMode (MSSQL.handshake_of w config))) /\
  (status = SCAN_APPLICATION_ERROR /\
   err = Some ErrNoServerEncryption /\
   exists r, result = Some r /\
             MSSQL.res_EncryptMode r = Some MSSQL.EncryptModeNotSupported).
Proof.
  destruct (C3_encryption_sentinels
              (Inputs.mssql_world Inputs.no_encryption)
              (Inputs.mssql_flags "ENCRYPT_ON") Inputs.dial_ok Inputs.target0
              (λ _, None) eq_refl eq_refl) as [Hcode Hmodel].
  split.
  - exact (Hcode ErrNoServerEncryption eq_refl eq_refl).
  - exact (Hmodel Inputs.no_encryption Inputs.options0
             eq_refl eq_refl eq_refl eq_refl).
Defined.

(** The same scan, read for its trace. *)
Lemma C5_no_tls_when_not_supported_witness :
  let w := Inputs.mssql_world Inputs.no_encryption in
  let config := Inputs.mssql_flags "ENCRYPT_OFF" in
  let t := snd (run (MSSQL.Scan w config Inputs.dial_ok Inputs.target0)) in
  MSSQL.h_err (MSSQL.handshake_of w config) = None /\
  t = [EvDialOk 0;
       EvProto (MSSQL.WriteTDS 0 MSSQL.PacketPrelogin MSSQL.prelogin_payload);
       EvProto (MSSQL.ReadTDS 0); EvClose 0] /\
  MSSQL.tls_writes t = 0.
Proof.
  destruct (C5_no_tls_when_not_supported
              (Inputs.mssql_world Inputs.no_encryption)
              (Inputs.mssql_flags "ENCRYPT_OFF") Inputs.dial_ok Inputs.target0
              (λ _, None) Inputs.no_encryption Inputs.options0
              (MSSQL.NewConnection 0) "ENCRYPT_OFF" eq_refl eq_refl)
    as [(_ & _ & _ & Herr) Hscan].
  split; [exact Herr|].
  exact (Hscan eq_refl eq_refl eq_refl).
Defined.

(** Against a server that encrypts, the TLS handshake bytes do go out. *)
Example tls_bytes_when_supported :
  MSSQL.tls_writes
    (snd (run (MSSQL.Scan (Inputs.mssql_world Inputs.sqlexpress)
                 (Inputs.mssql_flags "ENCRYPT_ON") Inputs.dial_ok
                 Inputs.target0)))
  = 1.
Proof. reflexivity. Qed.

(** The scenario of the spec: INSTANCE is SQLEXPRESS followed by NUL. *)
Lemma C7_instance_name_witness :
  let w := Inputs.mssql_world Inputs.sqlexpress in
  let config := Inputs.mssql_flags "ENCRYPT_ON" in
  let opts : gmap N (list byte) :=
    <[Inputs.instance_token := Inputs.sqlexpress0]> (<[1%N := [x01]]> ∅) in
  MSSQL.PreloginOptions_ (MSSQL.h_sql (MSSQL.handshake_of w config))
    = Some opts /\
  opts !! MSSQL.PreloginInstance w
    = Some [x53; x51; x4c; x45; x58; x50; x52; x45; x53; x53; x00] /\
  let '(status, result, err) :=
    fst (run (MSSQL.Scan w config Inputs.dial_ok Inputs.target0)) in
  exists r,
    result = Some r /\
    (MSSQL.InstanceName r = None <-> opts !! MSSQL.PreloginInstance w = None) /\
    (forall name,
        opts !! MSSQL.PreloginInstance w = Some name ->
        exists v,
          MSSQL.InstanceName r = Some v /\
          v = MSSQL.Trim (string_of_list_byte name) MSSQL.instance_cutset /\
          MSSQL.without_outer_NUL_CR_LF (string_of_list_byte name) v) /\
    (opts !! MSSQL.PreloginInstance w
       = Some [x53; x51; x4c; x45; x58; x50; x52; x45; x53; x53; x00] ->
     MSSQL.InstanceName r = Some "SQLEXPRESS").
Proof.
  split; [reflexivity|]. split; [reflexivity|].
  exact (C7_instance_name
           (Inputs.mssql_world Inputs.sqlexpress)
           (Inputs.mssql_flags "ENCRYPT_ON") Inputs.dial_ok Inputs.target0
           (λ _, None)
           (<[Inputs.instance_token := Inputs.sqlexpress0]> (<[1%N := [x01]]> ∅))
           eq_refl eq_refl eq_refl).
Defined.

(** What that scan returns: the name without its NUL, the server's mode
    and the TLS log. *)
Example sqlexpress_scan :
  match fst (run (MSSQL.Scan (Inputs.mssql_world Inputs.sqlexpress)
                    (Inputs.mssql_flags "ENCRYPT_ON") Inputs.dial_ok
                    Inputs.target0)) with
  | (status, Some r, err) =>
      status = SCAN_SUCCESS /\ err = None /\
      MSSQL.InstanceName r = Some "SQLEXPRESS" /\
      MSSQL.res_EncryptMode r = Some MSSQL.EncryptModeOn /\
      MSSQL.res_TLSLog r = Some "tls"
  | _ => False
  end.
Proof. vm_compute. repeat split. Qed.

Example Trim_both_ends :
  MSSQL.Trim (String "010" (String "000" ("a b" ++ String "013" (String "010" ""))))
    MSSQL.instance_cutset
  = "a b".
Proof. reflexivity. Qed.

(** Five banner bytes, a ceiling of three. *)
Lemma C8_banner_cut_at_ceiling_witness :
  forallb Telnet.plain (Telnet.bytes Inputs.telnet_hello) = true /\
  Telnet.ending Inputs.telnet_hello = None /\
  3 < length (Telnet.bytes Inputs.telnet_hello) /\
  let r := Telnet.ReadBanner Inputs.telnet_hello 3 in
  Telnet.Banner (Telnet.r_log r) = take 3 (Telnet.bytes Inputs.telnet_hello) /\
  length (Telnet.Banner (Telnet.r_log r)) = 3 /\
  Telnet.r_err r = None /\
  forall (View : Type) classify (view : Telnet.TelnetLog -> View) config
         dialGroup target,
    Dial dialGroup 0 = None ->
    Telnet.MaxReadSize config = Z.of_nat 3 ->
    fst (run (Telnet.Scan
                (Telnet.world_of_peer classify view (λ _, Inputs.telnet_hello))
                config dialGroup target))
    = (SCAN_SUCCESS,
       @Telnet.ResultLog View
         {| Telnet.Banner := take 3 (Telnet.bytes Inputs.telnet_hello);
            Telnet.Options := [] |}, None).
Proof.
  split; [reflexivity|]. split; [reflexivity|].
  split; [cbn; lia|].
  apply (C8_banner_cut_at_ceiling Inputs.telnet_hello 3);
    [reflexivity | reflexivity | cbn; lia].
Defined.

Example hello_scan :
  fst (run (Telnet.Scan (Inputs.telnet_world Inputs.telnet_hello)
              (Inputs.telnet_flags false 3) Inputs.dial_ok Inputs.target0))
  = (SCAN_SUCCESS,
     Telnet.ResultLog {| Telnet.Banner := [x48; x65; x6c];
                         Telnet.Options := [] |}, None).
Proof. reflexivity. Qed.

(** Two failed banner grabs.  One fails on a control sequence cut short,
    with the force-banner flag set and two banner bytes held: the log is
    attached.  The other fails before a byte arrives: the result is a nil
    pointer. *)
Lemma C10_result_on_banner_error_witness :
  (let w := Inputs.telnet_cut_pointer in
   let config := Inputs.telnet_flags true 16 in
   let log := {| Telnet.Banner := [x48; x69]; Telnet.Options := [] |} in
   Dial Inputs.dial_ok 0 = None /\
   Telnet.GetTelnetBanner w 0 (Telnet.MaxReadSize config)
     = (log, Some Telnet.ErrTruncated) /\
   let '(status, result, err) :=
     fst (run (Telnet.Scan w config Inputs.dial_ok Inputs.target0)) in
   let forced :=
     Telnet.ForceBanner config = true /\ 0 < length (Telnet.Banner log) in
   status = Telnet.TryGetScanStatus w Telnet.ErrTruncated /\
   err = Some Telnet.ErrTruncated /\
   (forced -> result = Telnet.ResultLog log) /\
   (~ forced -> result = Telnet.ResultView (Telnet.getResult w log)) /\
   (Telnet.result_is_nil result = true <->
    ~ forced /\ Telnet.getResult w log = None) /\
   (Telnet.getResult w = Telnet.getResult_model ->
    Telnet.Banner log = [] -> Telnet.Options log = [] ->
    Telnet.result_is_nil result = true)) /\
  (Telnet.GetTelnetBanner Inputs.telnet_silent 0 16
     = (Telnet.new_TelnetLog, Some (ErrOther "connection reset")) /\
   Telnet.getResult Inputs.telnet_silent = Telnet.getResult_model /\
   Telnet.result_is_nil
     (snd (fst (fst (run (Telnet.Scan Inputs.telnet_silent
                            (Inputs.telnet_flags true 16) Inputs.dial_ok
                            Inputs.target0)))))
   = true).
Proof.
  split.
  - split; [reflexivity|]. split; [reflexivity|].
    exact (C10_result_on_banner_error
             Inputs.telnet_cut_pointer
             (Inputs.telnet_flags true 16) Inputs.dial_ok Inputs.target0
             {| Telnet.Banner := [x48; x69]; Telnet.Options := [] |}
             Telnet.ErrTruncated eq_refl eq_refl).
  - split; [reflexivity|]. split; [reflexivity|].
    pose proof (C10_result_on_banner_error
                  Inputs.telnet_silent
                  (Inputs.telnet_flags true 16) Inputs.dial_ok Inputs.target0
                  Telnet.new_TelnetLog (ErrOther "connection reset")
                  eq_refl eq_refl) as H.
    cbn in H. destruct H as (_ & _ & _ & _ & _ & Hmodel).
    exact (Hmodel eq_refl eq_refl eq_refl).
Defined.

(** A grab that fails before a byte arrives leaves a log without signal:
    the result attached to the error is a nil pointer, with the force-banner
    flag set or not, so "a non-nil result" does not hold. *)
Lemma C10_non_nil_result_fails :
  ~ Telnet.non_nil_as_stated Inputs.telnet_silent
      (Inputs.telnet_flags true 16) Inputs.dial_ok Inputs.target0 /\
  ~ Telnet.non_nil_as_stated Inputs.telnet_silent
      (Inputs.telnet_flags false 16) Inputs.dial_ok Inputs.target0.
Proof.
  split; intros H;
    (assert (Hnil : true = false);
     [apply H; [reflexivity | eexists; reflexivity] | discriminate Hnil]).
Qed.

Example silent_peer_scan :
  fst (run (Telnet.Scan Inputs.telnet_silent (Inputs.telnet_flags true 16)
              Inputs.dial_ok Inputs.target0))
  = (SCAN_UNKNOWN_ERROR, Telnet.ResultView None,
     Some (ErrOther "connection reset")).
Proof. reflexivity. Qed.

(** The same failure without the flag: the view of [getResult] is
    attached; here it leaves the banner out. *)
Example banner_error_without_flag :
  fst (run (Telnet.Scan (Inputs.telnet_world Inputs.telnet_cut)
              (Inputs.telnet_flags false 16) Inputs.dial_ok Inputs.target0))
  = (SCAN_UNKNOWN_ERROR,
     Telnet.ResultView {| Telnet.Banner := []; Telnet.Options := [] |},
     Some Telnet.ErrTruncated).
Proof. reflexivity. Qed.

(* ===================================================================== *)
(** * More on the three scans                                             *)
(* ===================================================================== *)

(** Splits an SMB scan into its paths: first dial, first negotiation,
    second dial, second negotiation. *)
Ltac smb_paths w config dialGroup :=
  unfold SMB.retried, SMB.Scan, SMB.callGetSMBLog; scan_unfold;
  destruct (Dial dialGroup 0) as [?derr|]; cbn;
  [|destruct (SMB.GetSMBLog w 0 (SMB.SetupSession config) false
               (SMB.Verbose config)) as [[?log|] [?e|]] eqn:?Hfirst; cbn;
    [| |destruct (Dial dialGroup 1) as [?derr|]; cbn;
        [|destruct (SMB.GetSMBLog w 1 (SMB.SetupSession config) true
                     (SMB.Verbose config)) as [?result2 [?e2|]] eqn:?Hsecond;
          cbn] |]].

(* --------------------------------------------------------------------- *)
(** ** SMB: every path of the scan                                        *)
(* --------------------------------------------------------------------- *)

Section SMB_paths.
Import SMB.
Context {SMBLog : Type}.
Implicit Types (w : World SMBLog) (config : Flags) (dialGroup : DialerGroup).
Implicit Types (target : ScanTarget).

(** X1.  Whatever happens, the negotiator calls of an SMB scan are an
    initial part of two planned calls: the first on the first connection
    with the third argument false, the second on the second connection with
    the third argument true, both with the configured setup-session and
    verbose flags.  Each dial that connects is followed by exactly one
    call, and there is a second dial exactly when the first negotiation
    failed without a log. *)
Theorem SMB_calls_as_planned w config dialGroup target :
  let t := snd (run (Scan w config dialGroup target)) in
  negotiator_calls t `prefix_of` planned_calls config /\
  negotiations t = connects t /\
  dials t = (if retried w config dialGroup then 2 else 1).
Proof.
  unfold planned_calls.
  smb_paths w config dialGroup;
    (split; [eexists; reflexivity | split; reflexivity]).
Qed.

(** X2.  The log and the error an SMB scan returns always come from one
    place.  If its last dial failed, the result is nil, the error wraps the
    dial error and the status is that of the dial error.  Otherwise result
    and error are exactly the pair the last negotiator call answered, and the
    status is success when that error is nil and the status of that error
    when it is not: a log of the first attempt is never paired with an
    error of the second. *)
Theorem SMB_result_provenance w config dialGroup target :
  let '(status, result, err) := fst (run (Scan w config dialGroup target)) in
  let t := snd (run (Scan w config dialGroup target)) in
  match last_dial_error t None with
  | Some derr =>
      status = TryGetScanStatus w derr /\ result = None /\
      exists msg, err = Some (ErrWrap msg derr)
  | None =>
      exists c third,
        last (negotiator_calls t)
          = Some (CallGetSMBLog c (SetupSession config) third (Verbose config))
        /\ GetSMBLog w c (SetupSession config) third (Verbose config)
           = (result, err)
        /\ status = match err with
                    | None => SCAN_SUCCESS
                    | Some e => TryGetScanStatus w e
                    end
  end.
Proof.
  smb_paths w config dialGroup;
    first [ split; [reflexivity | split; [reflexivity | eexists; reflexivity]]
          | exists 0, false; rewrite Hfirst; repeat split; reflexivity
          | exists 1, true; rewrite Hsecond; repeat split; reflexivity ].
Qed.

End SMB_paths.

(* --------------------------------------------------------------------- *)
(** ** All three scans: dial failures, statuses, connections              *)
(* --------------------------------------------------------------------- *)

Section Three_scans.
Context {SMBLog View TLSLog : Type}.
Variables (wS : SMB.World SMBLog) (wT : Telnet.World View)
  (wM : MSSQL.World TLSLog).
Variables (cS : SMB.Flags) (cT : Telnet.Flags) (cM : MSSQL.Flags).
Variables (dialGroup : DialerGroup) (target : ScanTarget).

(** X3.  When the first dial fails, each of the three scans stops there:
    the trace holds the failed dial and nothing else (no protocol exchange,
    no close), the result is nil, the status is that of the dial error, and
    the error returned is the dial error wrapped with a message.  For the
    SMB and the Telnet scan the dial is that of the dialer group, for the
    MSSQL scan that of its L4 dialer. *)
Theorem dial_failure_ends_scan (derr derr4 : error) (d : dialer) :
  (Dial dialGroup 0 = Some derr ->
   (exists msg,
       run (SMB.Scan wS cS dialGroup target)
       = ((SMB.TryGetScanStatus wS derr, None, Some (ErrWrap msg derr)),
          [EvDialFail derr])) /\
   (exists msg,
       run (Telnet.Scan wT cT dialGroup target)
       = ((Telnet.TryGetScanStatus wT derr, Telnet.ResultNil,
           Some (ErrWrap msg derr)),
          [EvDialFail derr]))) /\
  (L4Dialer dialGroup = Some d -> d 0 = Some derr4 ->
   exists msg,
     run (MSSQL.Scan wM cM dialGroup target)
     = ((MSSQL.TryGetScanStatus wM derr4, None, Some (ErrWrap msg derr4)),
        [EvDialFail derr4])).
Proof.
  split.
  - intros Hdial. split.
    + unfold SMB.Scan. scan_unfold. rewrite Hdial. cbn.
      eexists. reflexivity.
    + unfold Telnet.Scan. scan_unfold. rewrite Hdial. cbn.
      eexists. reflexivity.
  - intros Hd Hl4.
    unfold MSSQL.Scan. scan_unfold. rewrite Hd. cbn. rewrite Hl4. cbn.
    eexists. reflexivity.
Qed.

(** X4.  Provided the status classifier never answers success for an
    error, each of the three scans returns the success status exactly when it
    returns a nil error; and a Telnet or MSSQL scan that returns a nil
    error attaches a result: the log, or the filled [ScanResults]. *)
Theorem success_iff_no_error :
  (forall e, SMB.TryGetScanStatus wS e <> SCAN_SUCCESS) ->
  (forall e, Telnet.TryGetScanStatus wT e <> SCAN_SUCCESS) ->
  (forall e, MSSQL.TryGetScanStatus wM e <> SCAN_SUCCESS) ->
  (let '(status, result, err) :=
     fst (run (SMB.Scan wS cS dialGroup target)) in
   status = SCAN_SUCCESS <-> err = None) /\
  (let '(status, result, err) :=
     fst (run (Telnet.Scan wT cT dialGroup target)) in
   (status = SCAN_SUCCESS <-> err = None) /\
   (err = None -> exists log, result = Telnet.ResultLog log)) /\
  (let '(status, result, err) :=
     fst (run (MSSQL.Scan wM cM dialGroup target)) in
   (status = SCAN_SUCCESS <-> err = None) /\
   (err = None -> exists r, result = Some r)).
Proof.
  intros HS HT HM.
  assert (Hfail : forall (status : ScanStatus) (e : error),
             status <> SCAN_SUCCESS -> status = SCAN_SUCCESS <-> Some e = None).
  { intros status e Hne. split; [intros H; contradiction | discriminate]. }
  assert (Hok : forall A, SCAN_SUCCESS = SCAN_SUCCESS <-> @None A = None).
  { intros A. split; reflexivity. }
  split; [|split].
  - smb_paths wS cS dialGroup; first [apply Hok | apply Hfail, HS].
  - unfold Telnet.Scan, Telnet.callGetTelnetBanner. scan_unfold.
    destruct (Dial dialGroup 0) as [derr|]; cbn.
    + split; [apply Hfail, HT | discriminate].
    + destruct (Telnet.GetTelnetBanner wT 0 (Telnet.MaxReadSize cT))
        as [log [e|]]; cbn.
      * destruct (Telnet.ForceBanner cT && _); cbn;
          (split; [apply Hfail, HT | discriminate]).
      * split; [apply Hok | intros _; eexists; reflexivity].
  - destruct (L4Dialer dialGroup) as [d|] eqn:Hd.
    + destruct (d 0) as [derr|] eqn:Hdial.
      * unfold MSSQL.Scan. scan_unfold. rewrite Hd. cbn. rewrite Hdial. cbn.
        split; [apply Hfail, HM | discriminate].
      * rewrite (mssql_run_connected wM cM dialGroup target d Hd Hdial).
        cbn [fst]. unfold MSSQL.after_handshake.
        destruct (MSSQL.h_err _) as [e|].
        -- destruct (errors_Is e ErrNoServerEncryption);
             [|destruct (errors_Is e ErrServerRequiresEncryption)];
             (split; [apply Hfail; first [discriminate | apply HM]
                     | discriminate]).
        -- split; [apply Hok | intros _; eexists; reflexivity].
    + unfold MSSQL.Scan. scan_unfold. rewrite Hd. cbn.
      split; [apply Hfail; discriminate | discriminate].
Qed.

(** X5.  An SMB or a Telnet scan uses its connections in order: every
    negotiator call and every banner grab runs on a connection that is open
    at that moment, never more than one connection is open at a time (the
    SMB scan closes the first before it dials the second), and none is
    left open when the scan returns. *)
Theorem connections_used_in_order :
  (let t := snd (run (SMB.Scan wS cS dialGroup target)) in
   on_open_only SMB.conn_of [] t = true /\
   peak_open [] t <= 1 /\
   live_after [] t = []) /\
  (let t := snd (run (Telnet.Scan wT cT dialGroup target)) in
   on_open_only Telnet.conn_of [] t = true /\
   peak_open [] t <= 1 /\
   live_after [] t = []).
Proof.
  split.
  - smb_paths wS cS dialGroup; repeat split; cbn; lia.
  - unfold Telnet.Scan, Telnet.callGetTelnetBanner. scan_unfold.
    destruct (Dial dialGroup 0) as [derr|]; cbn; [repeat split; cbn; lia|].
    destruct (Telnet.GetTelnetBanner wT 0 (Telnet.MaxReadSize cT))
      as [log [e|]]; cbn; [destruct (Telnet.ForceBanner cT && _); cbn|];
      repeat split; cbn; lia.
Qed.

End Three_scans.

(* --------------------------------------------------------------------- *)
(** ** Protocol effects in a trace                                        *)
(* --------------------------------------------------------------------- *)

Section Protocol_runs.
Context {P : Type} (conn_of : P -> conn).
Implicit Types (live : list conn) (io : list P) (t : list (event P)).

Lemma peak_open_ge live t : length live <= peak_open live t.
Proof. destruct t; cbn; lia. Qed.

Lemma live_after_protocol live io t :
  live_after live (map EvProto io ++ t) = live_after live t.
Proof. induction io as [|p io IH]; cbn; auto. Qed.

Lemma peak_open_protocol live io t :
  peak_open live (map EvProto io ++ t) = peak_open live t.
Proof.
  induction io as [|p io IH]; cbn; [reflexivity|].
  rewrite IH. pose proof (peak_open_ge live t). lia.
Qed.

Lemma on_open_only_protocol live io t :
  forallb (λ p, existsb (Nat.eqb (conn_of p)) live) io = true ->
  on_open_only conn_of live (map EvProto io ++ t) = on_open_only conn_of live t.
Proof.
  induction io as [|p io IH]; cbn; [reflexivity|].
  intros [Hp Hio]%andb_prop. rewrite Hp. cbn. apply IH, Hio.
Qed.

End Protocol_runs.

Lemma io_on_live (c : conn) (io : list MSSQL.mssql_event) :
  MSSQL.io_on c io = true ->
  forallb (λ p, existsb (Nat.eqb (MSSQL.conn_of p)) [c]) io = true.
Proof.
  unfold MSSQL.io_on. induction io as [|p io IH]; cbn; [reflexivity|].
  intros [Hp Hio]%andb_prop. rewrite Hp. cbn. apply IH, Hio.
Qed.

(* --------------------------------------------------------------------- *)
(** ** MSSQL and Telnet: one attempt                                      *)
(* --------------------------------------------------------------------- *)

Section MSSQL_paths.
Import MSSQL.
Context {TLSLog : Type}.
Implicit Types (w : World TLSLog) (config : Flags) (dialGroup : DialerGroup).
Implicit Types (target : ScanTarget).

(** X6.  If the handshake does its I/O on the connection it was given, an
    MSSQL scan uses its connection in order: all handshake I/O happens while
    the connection is open, at most one connection is open at a time, and
    none is left open when the scan returns, whatever the handshake
    returned. *)
Theorem MSSQL_connection_used_in_order w config dialGroup target :
  io_on 0 (h_io (handshake_of w config)) = true ->
  let t := snd (run (Scan w config dialGroup target)) in
  on_open_only conn_of [] t = true /\
  peak_open [] t <= 1 /\
  live_after [] t = [].
Proof.
  intros Hio. cbv zeta.
  destruct (L4Dialer dialGroup) as [d|] eqn:Hd.
  - destruct (d 0) as [derr|] eqn:Hdial.
    + unfold Scan. scan_unfold. rewrite Hd. cbn. rewrite Hdial. cbn.
      repeat split; lia.
    + rewrite (mssql_run_connected w config dialGroup target d Hd Hdial).
      cbn [snd app on_open_only peak_open live_after after_event andb length].
      rewrite (on_open_only_protocol conn_of [0]) by apply io_on_live, Hio.
      rewrite peak_open_protocol, live_after_protocol. cbn.
      repeat split; lia.
  - unfold Scan. scan_unfold. rewrite Hd. cbn. repeat split; lia.
Qed.

(** X7.  An MSSQL scan never dials twice, whatever the handshake
    returned: it dials once, or not at all when there is no L4 dialer, and
    a connection it got is the first and only one. *)
Theorem MSSQL_single_attempt w config dialGroup target :
  let t := snd (run (Scan w config dialGroup target)) in
  dials t = (if is_nil (L4Dialer dialGroup) then 0 else 1) /\
  connects t <= 1 /\
  (forall c, opened c t = true -> c = 0).
Proof.
  cbv zeta. destruct (L4Dialer dialGroup) as [d|] eqn:Hd.
  - destruct (d 0) as [derr|] eqn:Hdial.
    + unfold Scan. scan_unfold. rewrite Hd. cbn. rewrite Hdial. cbn.
      repeat split; [lia | discriminate].
    + rewrite (mssql_run_connected w config dialGroup target d Hd Hdial).
      cbn [snd]. unfold dials, connects, opened.
      split; [|split].
      * rewrite count_app_protocol by reflexivity. reflexivity.
      * rewrite count_app_protocol by reflexivity. cbn. lia.
      * intros c. rewrite existsb_app_protocol by reflexivity. cbn.
        destruct c; [reflexivity | discriminate].
  - unfold Scan. scan_unfold. rewrite Hd. cbn.
    repeat split; [lia | discriminate].
Qed.

End MSSQL_paths.

Section Telnet_paths.
Import Telnet.
Context {View : Type}.
Implicit Types (w : World View) (config : Flags) (dialGroup : DialerGroup).
Implicit Types (target : ScanTarget).

(** X8.  A Telnet scan makes one attempt, and its effects do not depend on
    what the banner grab returns: after a dial that connects, the trace is
    that dial, one banner grab on that connection with the configured
    max-read-size, and one close; after a dial that fails, the failed dial
    alone. *)
Theorem Telnet_single_attempt w config dialGroup target :
  snd (run (Scan w config dialGroup target))
  = match Dial dialGroup 0 with
    | None => [EvDialOk 0;
               EvProto (CallGetTelnetBanner 0 (MaxReadSize config));
               EvClose 0]
    | Some derr => [EvDialFail derr]
    end.
Proof.
  unfold Scan, callGetTelnetBanner. scan_unfold.
  destruct (Dial dialGroup 0) as [derr|]; cbn; [reflexivity|].
  destruct (GetTelnetBanner w 0 (MaxReadSize config)) as [log [e|]]; cbn;
    [destruct (ForceBanner config && _)|]; reflexivity.
Qed.

(** X9.  The force-banner flag decides nothing but the result of a failed
    grab with a banner: two configurations with the same max-read-size give
    the same status, the same error and the same trace, and also the same
    result whenever the grab returned no error or left an empty banner. *)
Theorem force_banner_only_after_error w config config' dialGroup target :
  MaxReadSize config = MaxReadSize config' ->
  let grab := GetTelnetBanner w 0 (MaxReadSize config) in
  let '(status, result, err) := fst (run (Scan w config dialGroup target)) in
  let '(status', result', err') :=
    fst (run (Scan w config' dialGroup target)) in
  status = status' /\ err = err' /\
  snd (run (Scan w config dialGroup target))
    = snd (run (Scan w config' dialGroup target)) /\
  (snd grab = None \/ Banner (fst grab) = [] -> result = result').
Proof.
  intros Hmax. rewrite !Telnet_single_attempt, <- Hmax.
  unfold Scan, callGetTelnetBanner. scan_unfold. rewrite <- Hmax.
  destruct (Dial dialGroup 0) as [derr|]; cbn; [auto|].
  destruct (GetTelnetBanner w 0 (MaxReadSize config)) as [log [e|]]; cbn;
    [|auto].
  destruct (Banner log) as [|b banner]; cbn.
  - rewrite !andb_false_r. cbn. auto.
  - destruct (ForceBanner config), (ForceBanner config'); cbn;
      repeat split; intros [H|H]; discriminate H.
Qed.

End Telnet_paths.

(* --------------------------------------------------------------------- *)
(** ** More on [strings.Trim]                                             *)
(* --------------------------------------------------------------------- *)

Section Trimming_more.
Import MSSQL.
Variable cutset : string.





Lemma all_in_ends (s : string) :
  all_in cutset s = true -> s = EmptyString \/ ends_in cutset s = true.
Proof.
  induction s as [|c s IH]; [auto|].
  cbn [all_in]. intros [Hc Hs]%andb_prop. right.
  destruct (IH Hs) as [-> | Hend]; [exact Hc|].
  destruct s; [discriminate Hend | exact Hend].
Qed.

Lemma TrimRight_empty (s : string) :
  TrimRight s cutset = EmptyString <-> all_in cutset s = true.
Proof.
  induction s as [|c s IH]; [split; reflexivity|].
  cbn [TrimRight all_in]. destruct (TrimRight s cutset) as [|a r].
  - destruct (in_cutset cutset c); cbn.
    + split; [intros _; apply IH; reflexivity | reflexivity].
    + split; discriminate.
  - split; [discriminate|].
    intros [_ Hs]%andb_prop. apply IH in Hs. discriminate Hs.
Qed.

Lemma TrimLeft_empty (s : string) :
  TrimLeft s cutset = EmptyString <-> all_in cutset s = true.
Proof.
  induction s as [|c s IH]; [split; reflexivity|].
  cbn [TrimLeft all_in]. destruct (in_cutset cutset c); cbn.
  - exact IH.
  - split; discriminate.
Qed.

(** [Trim] leaves nothing exactly of the strings made of cutset
    characters only. *)
Lemma Trim_empty (s : string) :
  Trim s cutset = EmptyString <-> all_in cutset s = true.
Proof.
  unfold Trim. split.
  - intros H. apply TrimLeft_empty in H.
    destruct (TrimRight_split cutset s) as (r & _ & _ & Hend).
    destruct (all_in_ends _ H) as [Hnil | Hends].
    + apply TrimRight_empty, Hnil.
    + rewrite Hends in Hend. discriminate Hend.
  - intros H. apply TrimRight_empty in H. rewrite H. reflexivity.
Qed.

End Trimming_more.

(* --------------------------------------------------------------------- *)
(** ** MSSQL: what the result holds                                       *)
(* --------------------------------------------------------------------- *)

Section MSSQL_result.
Import MSSQL.
Context {TLSLog : Type}.
Implicit Types (w : World TLSLog) (config : Flags) (dialGroup : DialerGroup).
Implicit Types (target : ScanTarget) (d : dialer).

(** With decoded options the result is attached, whatever the handshake
    returned. *)
Lemma after_handshake_decoded w (h : HandshakeResult TLSLog) opts :
  PreloginOptions_ (h_sql h) = Some opts ->
  snd (fst (after_handshake w h))
  = Some (fill_result w (h_sql h) (h_encryptMode h)).
Proof.
  intros Hopts. unfold after_handshake. rewrite Hopts.
  destruct (h_err h) as [e|]; [|reflexivity].
  destruct (errors_Is e ErrNoServerEncryption); [reflexivity|].
  destruct (errors_Is e ErrServerRequiresEncryption); reflexivity.
Qed.

(** An attached result is the filled one. *)
Lemma after_handshake_attached w (h : HandshakeResult TLSLog) r :
  snd (fst (after_handshake w h)) = Some r ->
  r = fill_result w (h_sql h) (h_encryptMode h).
Proof.
  unfold after_handshake. destruct (h_err h) as [e|].
  - destruct (is_nil _ && negb _);
      destruct (errors_Is e ErrNoServerEncryption);
      try destruct (errors_Is e ErrServerRequiresEncryption);
      cbn; congruence.
  - cbn. congruence.
Qed.

(** X10.  Whatever the handshake returned, a result that an MSSQL scan
    attaches reports what the connection holds: the encrypt mode the
    handshake returned; the log of the TLS connection if there is one, also
    after a failed handshake; the prelogin options as decoded; the version
    string if one decodes and the empty string if not; and no instance name
    when no options were decoded. *)
Theorem MSSQL_result_fields w config dialGroup target d :
  L4Dialer dialGroup = Some d -> d 0 = None ->
  let h := handshake_of w config in
  forall r,
    snd (fst (fst (run (Scan w config dialGroup target)))) = Some r ->
    res_EncryptMode r = Some (h_encryptMode h) /\
    res_TLSLog r = tlsConn (h_sql h) ≫= GetLog /\
    res_PreloginOptions r = PreloginOptions_ (h_sql h) /\
    Version r = default "" (PreloginOptions_ (h_sql h) ≫= GetVersion w) /\
    (PreloginOptions_ (h_sql h) = None -> InstanceName r = None).
Proof.
  intros Hd Hdial h r.
  rewrite (mssql_run_connected w config dialGroup target d Hd Hdial).
  cbn [fst]. intros ->%after_handshake_attached. fold h.
  unfold fill_result.
  destruct (tlsConn (h_sql h)) as [tls|],
    (PreloginOptions_ (h_sql h)) as [opts|]; cbn;
    try destruct (GetVersion w opts); cbn; repeat split; discriminate.
Qed.

(** The instance name of a scan that decoded an INSTANCE option. *)
Lemma mssql_instance_name w config dialGroup target d opts name :
  L4Dialer dialGroup = Some d -> d 0 = None ->
  PreloginOptions_ (h_sql (handshake_of w config)) = Some opts ->
  opts !! PreloginInstance w = Some name ->
  exists r,
    snd (fst (fst (run (Scan w config dialGroup target)))) = Some r /\
    InstanceName r = Some (Trim (string_of_list_byte name) instance_cutset).
Proof.
  intros Hd Hdial Hopts Hname.
  rewrite (mssql_run_connected w config dialGroup target d Hd Hdial).
  cbn [fst]. rewrite (after_handshake_decoded w _ opts Hopts).
  eexists. split; [reflexivity|].
  unfold fill_result. rewrite Hopts. cbn. rewrite Hname. reflexivity.
Qed.

(** X11.  An INSTANCE option that is present always gives a non-nil
    instance name, and the name is the empty string exactly when the option
    holds nothing but NUL, CR and LF bytes: the lone NUL of a default
    instance, or no bytes at all, is reported as present and empty, not as
    absent. *)
Theorem MSSQL_instance_present_but_empty w config dialGroup target d opts name :
  L4Dialer dialGroup = Some d -> d 0 = None ->
  PreloginOptions_ (h_sql (handshake_of w config)) = Some opts ->
  opts !! PreloginInstance w = Some name ->
  exists r,
    snd (fst (fst (run (Scan w config dialGroup target)))) = Some r /\
    InstanceName r <> None /\
    (InstanceName r = Some EmptyString <->
     only_NUL_CR_LF (string_of_list_byte name) = true) /\
    (name = [x00] \/ name = [] -> InstanceName r = Some EmptyString).
Proof.
  intros Hd Hdial Hopts Hname.
  destruct (mssql_instance_name w config dialGroup target d opts name
              Hd Hdial Hopts Hname) as (r & Hr & Hinst).
  exists r. split; [exact Hr|]. rewrite Hinst. split; [discriminate|].
  assert (Hiff : Some (Trim (string_of_list_byte name) instance_cutset)
                 = Some EmptyString <->
                 only_NUL_CR_LF (string_of_list_byte name) = true).
  { rewrite <- all_in_instance_cutset, <- Trim_empty.
    split; [intros [= H]; exact H | intros ->; reflexivity]. }
  split; [exact Hiff|].
  intros [-> | ->]; apply Hiff; reflexivity.
Qed.


End MSSQL_result.

(* --------------------------------------------------------------------- *)
(** ** Initialising scanners                                              *)
(* --------------------------------------------------------------------- *)

Section Setup_properties.
Import Setup.
Context {TransportProtocol TLSFlags Level : Type}.
Variable TransportTCP : TransportProtocol.
Variable DebugLevel : Level.
Implicit Types (level : Level).

(** X13.  After start-up the process-wide log level is the debug level if
    one of the scanners was an MSSQL scanner with the verbose flag, and the
    level from before otherwise: a verbose SMB or Telnet scanner does not
    touch it, and no later [Init] takes the debug level back.  Each scanner
    is configured from its own flags, whatever it held before: its name and
    trigger are those of its flags, and its dialer configuration asks for a
    separate L4 dialer and for TLS exactly when it is an MSSQL scanner. *)
Theorem Init_log_level_sticks
    (l : list (@Scanner TransportProtocol TLSFlags * @ScanFlags TLSFlags))
    level :
  snd (Init_each TransportTCP DebugLevel l level)
  = (if existsb (λ p, raises_level (snd p)) l then DebugLevel else level) /\
  Forall2
    (λ scanner' p,
       let mssql := match snd p with FlagsMSSQL _ => true | _ => false end in
       GetName scanner' = Some (Name (base_of (snd p))) /\
       GetTrigger scanner' = Some (Trigger (base_of (snd p))) /\
       NeedSeparateL4Dialer <$> GetDialerGroupConfig scanner' = Some mssql /\
       TLSEnabled <$> GetDialerGroupConfig scanner' = Some mssql)
    (fst (Init_each TransportTCP DebugLevel l level)) l.
Proof.
  revert level. induction l as [|[scanner flags] l IH]; intros level.
  - split; [reflexivity | constructor].
  - cbn [Init_each existsb snd].
    destruct (Init TransportTCP DebugLevel scanner flags level)
      as [[scanner' level'] err] eqn:HInit.
    specialize (IH level').
    destruct (Init_each TransportTCP DebugLevel l level')
      as [scanners level''].
    cbn [fst snd] in IH |- *. destruct IH as [IHlevel IHeach].
    split.
    + rewrite IHlevel.
      destruct flags as [f|f|f]; cbn in HInit |- *;
        injection HInit as <- <- <-; try reflexivity.
      destruct (MSSQL.Verbose (mssql_scan f)); cbn; [|reflexivity].
      destruct (existsb _ l); reflexivity.
    + constructor; [|exact IHeach].
      destruct flags as [f|f|f]; cbn in HInit |- *;
        injection HInit as <- <- <-; repeat split.
Qed.

End Setup_properties.

(* --------------------------------------------------------------------- *)
(** ** These theorems on concrete scans                                   *)
(* --------------------------------------------------------------------- *)

Lemma classify_never_success (e : error) : Inputs.classify e <> SCAN_SUCCESS.
Proof.
  unfold Inputs.classify.
  destruct (errors_Is e (ErrOther "i/o timeout")); [discriminate|].
  destruct (errors_Is e (ErrOther "connection refused")); discriminate.
Defined.

(** The dialer group refuses every dial; its L4 dialer times out. *)
Lemma dial_failure_ends_scan_witness :
  let derr := ErrOther "connection refused" in
  let derr4 := ErrOther "i/o timeout" in
  Dial Inputs.dial_unreachable 0 = Some derr /\
  (exists d, L4Dialer Inputs.dial_unreachable = Some d /\ d 0 = Some derr4) /\
  (exists msg,
      run (SMB.Scan Inputs.smb_reset_first Inputs.smb_quiet
             Inputs.dial_unreachable Inputs.target0)
      = ((SCAN_CONNECTION_FAILED, None, Some (ErrWrap msg derr)),
         [EvDialFail derr])) /\
  (exists msg,
      run (Telnet.Scan (Inputs.telnet_world Inputs.telnet_hello)
             (Inputs.telnet_flags false 3) Inputs.dial_unreachable
             Inputs.target0)
      = ((SCAN_CONNECTION_FAILED, Telnet.ResultNil, Some (ErrWrap msg derr)),
         [EvDialFail derr])) /\
  (exists msg,
      run (MSSQL.Scan (Inputs.mssql_world Inputs.sqlexpress)
             (Inputs.mssql_flags "ENCRYPT_ON") Inputs.dial_unreachable
             Inputs.target0)
      = ((SCAN_TIMEOUT, None, Some (ErrWrap msg derr4)),
         [EvDialFail derr4])).
Proof.
  split; [reflexivity|].
  split; [eexists; split; reflexivity|].
  destruct (dial_failure_ends_scan
              Inputs.smb_reset_first (Inputs.telnet_world Inputs.telnet_hello)
              (Inputs.mssql_world Inputs.sqlexpress)
              Inputs.smb_quiet (Inputs.telnet_flags false 3)
              (Inputs.mssql_flags "ENCRYPT_ON")
              Inputs.dial_unreachable Inputs.target0
              (ErrOther "connection refused") (ErrOther "i/o timeout")
              (λ _, Some (ErrOther "i/o timeout")))
    as [Hdial Hl4].
  destruct (Hdial eq_refl) as [Hsmb Htelnet].
  split; [exact Hsmb|]. split; [exact Htelnet|].
  exact (Hl4 eq_refl eq_refl).
Defined.

(** A classifier that never answers success, on three scans that fail in
    the protocol exchange or succeed. *)
Lemma success_iff_no_error_witness :
  (forall e, Inputs.classify e <> SCAN_SUCCESS) /\
  (let '(status, result, err) :=
     fst (run (SMB.Scan Inputs.smb_partial Inputs.smb_quiet Inputs.dial_ok
                 Inputs.target0)) in
   status = SCAN_SUCCESS <-> err = None) /\
  (let '(status, result, err) :=
     fst (run (Telnet.Scan (Inputs.telnet_world Inputs.telnet_cut)
                 (Inputs.telnet_flags true 16) Inputs.dial_ok
                 Inputs.target0)) in
   (status = SCAN_SUCCESS <-> err = None) /\
   (err = None -> exists log, result = Telnet.ResultLog log)) /\
  (let '(status, result, err) :=
     fst (run (MSSQL.Scan (Inputs.mssql_world Inputs.sqlexpress)
                 (Inputs.mssql_flags "ENCRYPT_ON") Inputs.dial_ok
                 Inputs.target0)) in
   (status = SCAN_SUCCESS <-> err = None) /\
   (err = None -> exists r, result = Some r)).
Proof.
  split; [exact classify_never_success|].
  exact (success_iff_no_error
           Inputs.smb_partial (Inputs.telnet_world Inputs.telnet_cut)
           (Inputs.mssql_world Inputs.sqlexpress)
           Inputs.smb_quiet (Inputs.telnet_flags true 16)
           (Inputs.mssql_flags "ENCRYPT_ON")
           Inputs.dial_ok Inputs.target0
           classify_never_success classify_never_success
           classify_never_success).
Defined.

(** The handshake against the SQLEXPRESS server, TLS included, stays on
    its connection. *)
Lemma MSSQL_connection_used_in_order_witness :
  let w := Inputs.mssql_world Inputs.sqlexpress in
  let config := Inputs.mssql_flags "ENCRYPT_ON" in
  MSSQL.io_on 0 (MSSQL.h_io (MSSQL.handshake_of w config)) = true /\
  let t := snd (run (MSSQL.Scan w config Inputs.dial_ok Inputs.target0)) in
  on_open_only MSSQL.conn_of [] t = true /\
  peak_open [] t <= 1 /\
  live_after [] t = [].
Proof.
  split; [reflexivity|].
  exact (MSSQL_connection_used_in_order
           (Inputs.mssql_world Inputs.sqlexpress)
           (Inputs.mssql_flags "ENCRYPT_ON") Inputs.dial_ok Inputs.target0
           eq_refl).
Defined.

(** A trace that breaks the order is told apart: a call on a connection
    after its close, and two connections open at once. *)
Example order_checks_reject :
  on_open_only SMB.conn_of []
    [EvDialOk 0; EvClose 0;
     EvProto (SMB.CallGetSMBLog 0 false false false)] = false /\
  peak_open [] [@EvDialOk SMB.smb_event 0; EvDialOk 1; EvClose 1; EvClose 0]
  = 2.
Proof. split; reflexivity. Qed.

(** The cut control sequence after an empty banner, with and without the
    force-banner flag. *)
Lemma force_banner_only_after_error_witness :
  let w := Inputs.telnet_world
             {| Telnet.bytes := [xff; xfb]; Telnet.ending := None |} in
  let config := Inputs.telnet_flags true 16 in
  let config' := Inputs.telnet_flags false 16 in
  Telnet.MaxReadSize config = Telnet.MaxReadSize config' /\
  let grab := Telnet.GetTelnetBanner w 0 (Telnet.MaxReadSize config) in
  let '(status, result, err) :=
    fst (run (Telnet.Scan w config Inputs.dial_ok Inputs.target0)) in
  let '(status', result', err') :=
    fst (run (Telnet.Scan w config' Inputs.dial_ok Inputs.target0)) in
  status = status' /\ err = err' /\
  snd (run (Telnet.Scan w config Inputs.dial_ok Inputs.target0))
    = snd (run (Telnet.Scan w config' Inputs.dial_ok Inputs.target0)) /\
  (snd grab = None \/ Telnet.Banner (fst grab) = [] -> result = result').
Proof.
  split; [reflexivity|].
  exact (force_banner_only_after_error
           (Inputs.telnet_world
              {| Telnet.bytes := [xff; xfb]; Telnet.ending := None |})
           (Inputs.telnet_flags true 16) (Inputs.telnet_flags false 16)
           Inputs.dial_ok Inputs.target0 eq_refl).
Defined.

(** A failed TLS handshake against a server that requires encryption: the
    TLS log is attached all the same. *)
Lemma MSSQL_result_fields_witness :
  let w := Inputs.mssql_world Inputs.tls_fails in
  let config := Inputs.mssql_flags "ENCRYPT_ON" in
  let h := MSSQL.handshake_of w config in
  L4Dialer Inputs.dial_ok = Some (λ _, None) /\
  forall r,
    snd (fst (fst (run (MSSQL.Scan w config Inputs.dial_ok Inputs.target0))))
      = Some r ->
    MSSQL.res_EncryptMode r = Some (MSSQL.h_encryptMode h) /\
    MSSQL.res_TLSLog r = MSSQL.tlsConn (MSSQL.h_sql h) ≫= MSSQL.GetLog /\
    MSSQL.res_PreloginOptions r = MSSQL.PreloginOptions_ (MSSQL.h_sql h) /\
    MSSQL.Version r
      = default "" (MSSQL.PreloginOptions_ (MSSQL.h_sql h)
                      ≫= MSSQL.GetVersion w) /\
    (MSSQL.PreloginOptions_ (MSSQL.h_sql h) = None ->
     MSSQL.InstanceName r = None).
Proof.
  split; [reflexivity|].
  exact (MSSQL_result_fields
           (Inputs.mssql_world Inputs.tls_fails)
           (Inputs.mssql_flags "ENCRYPT_ON") Inputs.dial_ok Inputs.target0
           (λ _, None) eq_refl eq_refl).
Defined.

Example tls_log_after_failed_handshake :
  match fst (run (MSSQL.Scan (Inputs.mssql_world Inputs.tls_fails)
                    (Inputs.mssql_flags "ENCRYPT_ON") Inputs.dial_ok
                    Inputs.target0)) with
  | (status, Some r, err) =>
      status = SCAN_APPLICATION_ERROR /\
      err = Some ErrServerRequiresEncryption /\
      MSSQL.res_TLSLog r = Some "tls" /\
      MSSQL.res_EncryptMode r = Some MSSQL.EncryptModeRequired
  | _ => False
  end.
Proof. vm_compute. repeat split. Qed.

(** The default instance: INSTANCE is a single NUL. *)
Lemma MSSQL_instance_present_but_empty_witness :
  let w := Inputs.mssql_world Inputs.default_instance in
  let config := Inputs.mssql_flags "ENCRYPT_OFF" in
  Inputs.default_instance_options !! MSSQL.PreloginInstance w = Some [x00] /\
  exists r,
    snd (fst (fst (run (MSSQL.Scan w config Inputs.dial_ok Inputs.target0))))
      = Some r /\
    MSSQL.InstanceName r <> None /\
    (MSSQL.InstanceName r = Some EmptyString <->
     MSSQL.only_NUL_CR_LF (string_of_list_byte [x00]) = true) /\
    ([x00] = [x00] \/ [x00] = [] -> MSSQL.InstanceName r = Some EmptyString).
Proof.
  split; [reflexivity|].
  exact (MSSQL_instance_present_but_empty
           (Inputs.mssql_world Inputs.default_instance)
           (Inputs.mssql_flags "ENCRYPT_OFF") Inputs.dial_ok Inputs.target0
           (λ _, None) Inputs.default_instance_options [x00]
           eq_refl eq_refl eq_refl eq_refl).
Defined.

Example default_instance_scan :
  match fst (run (MSSQL.Scan (Inputs.mssql_world Inputs.default_instance)
                    (Inputs.mssql_flags "ENCRYPT_OFF") Inputs.dial_ok
                    Inputs.target0)) with
  | (status, Some r, err) =>
      status = SCAN_SUCCESS /\ MSSQL.InstanceName r = Some ""
  | _ => False
  end.
Proof. vm_compute. repeat split. Qed.

